(** * Skill dispatch layer: SkillDialog and SkillWebSocketTransport

    A shallow embedding of
      sdk/typescript/libraries/botbuilder-skills/src/skillDialog.ts
      lib/typescript/botbuilder-skills/src/websocket/skillWebSocketTransport.ts
    Asynchronous code is modelled in a state-and-exception monad over the
    state a conversation turn can observe; [await] is sequencing. *)

From Stdlib Require Import String Ascii List Bool Arith Lia.
From stdpp Require Import base option list strings gmap.

Import ListNotations.
Set Warnings "-register-all".
Local Open Scope string_scope.
Local Open Scope list_scope.

(** ** JavaScript strings *)

Module Js.

(** [s.startsWith(p)] *)
Definition startsWith (s p : string) : bool := String.prefix p s.

(** The characters of [s] from index [n] on. *)
Fixpoint skip (n : nat) (s : string) : string :=
  match n, s with
  | O, _ => s
  | S _, EmptyString => EmptyString
  | S n', String _ s' => skip n' s'
  end.

(** [s.replace(pat, rep)] with a string pattern: only the first occurrence
    of [pat] is replaced.  ([rep] holds no dollar sign in this program, so
    no replacement pattern is expanded.) *)
Fixpoint replace (s pat rep : string) : string :=
  if String.prefix pat s then rep +:+ skip (String.length pat) s
  else match s with
       | EmptyString => EmptyString
       | String c s' => String c (replace s' pat rep)
       end.

(** [!s] for a string: only the empty string is falsy. *)
Definition falsy (s : string) : bool :=
  match s with EmptyString => true | _ => false end.

(** Operands of [===] as far as this program compares them: [undefined],
    a string, or a reference to an object. *)
Inductive Operand := Undefined | Str (s : string) | Object.

(** [x === s] for a string [s]: operands of different types are not
    strictly equal. *)
Definition strictEqStr (x : Operand) (s : string) : bool :=
  match x with
  | Str s' => String.eqb s' s
  | Undefined | Object => false
  end.

End Js.

(** ** Data model *)

(** An opaque slot value ([Object] in the source). *)
Definition Obj := string.

Record SemanticAction := {
  sa_id : string;
  sa_entities : gmap string Obj;
  sa_state : string
}.

Inductive DialogTurnStatus := empty | waiting | complete | cancelled.

Inductive RouterDialogTurnStatus := End | Restart.

(** The values a dialog can end with. *)
Inductive Value :=
| VBool (b : bool)
| VString (s : string)
| VEntities (e : gmap string Obj)
| VTokenResponse (token : string)
| VRouterDialogTurnResult (s : RouterDialogTurnStatus)
| VDialogTurnResult (s : DialogTurnStatus) (r : option Value).

Record DialogTurnResult := { status : DialogTurnStatus; result : option Value }.

Inductive ActivityTypes := Message | Event | Trace | ConversationUpdate | EndOfConversation.

(** [Partial<Activity>]: the fields this program reads or writes.
    [a_value] is the payload of an event,
    [a_from] and [a_recipient] are the ids of the two channel accounts. *)
Record Activity := {
  a_type : option ActivityTypes;
  a_name : option string;
  a_text : option string;
  a_speak : option string;
  a_value : option Value;
  a_from : option string;
  a_recipient : option string;
  a_semanticAction : option SemanticAction
}.

Record ISlot := { slot_name : string; slot_type : string }.

(** [IAction]; [action_slots] is [definition.slots]. *)
Record IAction := { action_id : string; action_slots : list ISlot }.

Record ISkillManifest := {
  m_id : string;
  m_name : string;
  m_endpoint : string;
  m_msaAppId : string;
  m_actions : list IAction
}.

(** Errors: [new Error(message)] thrown by this code, and rejections of the
    collaborators it awaits. *)
Inductive Error :=
| JsError (message : string)
| Rejected (who : string).

(** Callback requests a skill raises while a send is in flight. *)
Inductive CallbackRequest :=
| TokenRequest (a : Activity)
| FallbackRequest (a : Activity)
| Handoff (a : Activity).

(** ** The transport interface, [ISkillTransport]

    A transport is a state [T] with three operations.  [forwardToSkill]
    receives the manifest, the activity of the turn context, the activity
    to forward and whether a token-request handler and a fallback handler
    were passed; it answers with its next state, the callback requests it
    handed to those handlers while the call was in flight (in order), and
    the value its promise settles to. *)
Record Forwarded (T : Type) := {
  fw_next : T;
  fw_delivered : list CallbackRequest;
  fw_outcome : Error + option Activity
}.
Arguments fw_next {T}.
Arguments fw_delivered {T}.
Arguments fw_outcome {T}.

Class ISkillTransport (T : Type) := {
  transport_forwardToSkill :
    ISkillManifest -> Activity -> Activity -> bool -> bool -> T -> Forwarded T;
  transport_cancelRemoteDialogs :
    ISkillManifest -> Activity -> T -> T * (Error + unit);
  transport_disconnect : T -> T
}.

(** ** Parts of the repository that are not among the sources *)

(** Constants and helpers of [./models], [./skillConstants] and
    [botbuilder-solutions] that the two files import, and the behaviour of
    the confirm prompt and of the authentication dialog; they are
    parameters of the development. *)
Class Imports := {
  createReply : Activity -> Activity;
  isProviderTokenResponse : option Value -> bool;
  skillStart : string;
  cancelAllSkillDialogsEventName : string;
  fallbackEventName : string;
  fallbackHandledEventName : string;
  tokenResponseEventName : string;
  (* ConfirmPrompt: the answer recognised in an inbound activity, and what
     the prompt sends when it recognises none (the inbound activity, then
     the prompt it was begun with) *)
  recognizeConfirm : Activity -> option bool;
  confirmRetry : Activity -> Activity -> list Activity;
  (* MultiProviderAuthDialog: the turn result it begins with on an
     activity, and the result of [innerDC.continueDialog()] while it is the
     active dialog *)
  authDialogBegin : Activity -> DialogTurnResult;
  authDialogContinue : Activity -> DialogTurnResult
}.

(** ** SkillWebSocketTransport *)

Module SkillWebSocketTransport.

(** What the credential provider and the skill do during one call of
    [forwardToSkill]: whether [getToken], [connectAsync] and [sendAsync]
    reject, and the callback requests the skill raises during the send.
    A [sendAsync] that rejects does so either before the request is
    written, or after it was written and the callback requests of
    [x_inbound] were handled ([x_failsAfterDelivery]). *)
Record Exchange := {
  x_tokenFails : bool;
  x_connectFails : bool;
  x_sendFails : bool;
  x_failsAfterDelivery : bool;
  x_inbound : list CallbackRequest
}.

Definition quiet : Exchange :=
  {| x_tokenFails := false; x_connectFails := false; x_sendFails := false;
     x_failsAfterDelivery := false; x_inbound := [] |}.

(** The connection: its URL, whether it is open, and the handlers its
    request handler was created with. *)
Record StreamingClient := {
  c_url : string;
  c_connected : bool;
  c_tokenRequestHandler : bool;
  c_fallbackHandler : bool
}.

(** The object's fields, the remaining behaviour of its environment
    ([exchanges], one per call, [quiet] once exhausted) and what it has
    put on the wire ([posted], newest last). *)
Record t := {
  streamingTransportClient : option StreamingClient;
  handoffActivity : option Activity;
  exchanges : list Exchange;
  posted : list Activity
}.

Definition ensureWebSocketUrl (url : string) : Error + string :=
  if Js.falsy url then inl (JsError "url is empty!")
  else
    let httpPrefix := "http://" in
    let httpsPrefix := "https://" in
    let wsPrefix := "ws://" in
    let wssPrefix := "wss://" in
    if Js.startsWith url httpPrefix then inr (Js.replace url httpPrefix wsPrefix)
    else if Js.startsWith url httpsPrefix then inr (Js.replace url httpsPrefix wssPrefix)
    else inr url.

(** The request handler of the connection: a hand-off is stored, a token
    or fallback request goes to the handler the connection was created
    with. *)
Fixpoint receive (tokenRequestHandler fallbackHandler : bool)
    (inbound : list CallbackRequest) (handoff : option Activity)
  : list CallbackRequest * option Activity :=
  match inbound with
  | [] => ([], handoff)
  | Handoff a :: rest => receive tokenRequestHandler fallbackHandler rest (Some a)
  | TokenRequest a :: rest =>
      let '(d, h) := receive tokenRequestHandler fallbackHandler rest handoff in
      (if tokenRequestHandler then TokenRequest a :: d else d, h)
  | FallbackRequest a :: rest =>
      let '(d, h) := receive tokenRequestHandler fallbackHandler rest handoff in
      (if fallbackHandler then FallbackRequest a :: d else d, h)
  end.

(** The latency sent to the telemetry client is not part of the model. *)
Definition forwardToSkill (skillManifest : ISkillManifest) (activity : Activity)
    (tokenRequestHandler fallbackHandler : bool) (this : t) : Forwarded t :=
  let x := hd quiet (exchanges this) in
  let this := {| streamingTransportClient := streamingTransportClient this;
                 handoffActivity := handoffActivity this;
                 exchanges := tl (exchanges this);
                 posted := posted this |} in
  let stop (this : t) (e : Error) :=
    {| fw_next := this; fw_delivered := []; fw_outcome := inl e |} in
  (* establish websocket connection *)
  let client :=
    match streamingTransportClient this with
    | Some c => inr c
    | None =>
        match ensureWebSocketUrl (m_endpoint skillManifest) with
        | inl e => inl e
        | inr url => inr {| c_url := url; c_connected := false;
                            c_tokenRequestHandler := tokenRequestHandler;
                            c_fallbackHandler := fallbackHandler |}
        end
    end in
  match client with
  | inl e => stop this e
  | inr c =>
    let this := {| streamingTransportClient := Some c;
                   handoffActivity := handoffActivity this;
                   exchanges := exchanges this;
                   posted := posted this |} in
    (* acquire AAD token *)
    if x_tokenFails x then stop this (Rejected "getToken")
    else if x_connectFails x then stop this (Rejected "connectAsync")
    else
      let this := {| streamingTransportClient :=
                       Some {| c_url := c_url c; c_connected := true;
                               c_tokenRequestHandler := c_tokenRequestHandler c;
                               c_fallbackHandler := c_fallbackHandler c |};
                     handoffActivity := handoffActivity this;
                     exchanges := exchanges this;
                     posted := posted this |} in
      (* set recipient to the skill, serialize, set back recipient id *)
      let sent : t * list CallbackRequest * option Error :=
        match a_recipient activity with
        | Some _ =>
            let body := {| a_type := a_type activity; a_name := a_name activity;
                           a_text := a_text activity; a_speak := a_speak activity;
                           a_value := a_value activity; a_from := a_from activity;
                           a_recipient := Some (m_msaAppId skillManifest);
                           a_semanticAction := a_semanticAction activity |} in
            let '(d, h) := receive (c_tokenRequestHandler c) (c_fallbackHandler c)
                             (x_inbound x) (handoffActivity this) in
            let written := {| streamingTransportClient := streamingTransportClient this;
                              handoffActivity := h;
                              exchanges := exchanges this;
                              posted := posted this ++ [body] |} in
            if x_sendFails x then
              if x_failsAfterDelivery x then (written, d, Some (JsError "Callback failed"))
              else (this, [], Some (JsError "Callback failed"))
            else (written, d, None)
        | None => (this, [], None)
        end in
      match sent with
      | (this, d, Some e) => {| fw_next := this; fw_delivered := d; fw_outcome := inl e |}
      | (this, d, None) =>
          match handoffActivity this with
          | None => {| fw_next := this; fw_delivered := d;
                       fw_outcome := inl (JsError "handoffActivity value is Undefined") |}
          | Some h => {| fw_next := this; fw_delivered := d; fw_outcome := inr (Some h) |}
          end
      end
  end.

Section WithImports.
Context `{Imports}.

(** The callbacks a skill raises while it is told to cancel are left out. *)
Definition cancelRemoteDialogs (skillManifest : ISkillManifest) (turnActivity : Activity)
    (this : t) : t * (Error + unit) :=
  let reply := createReply turnActivity in
  let cancelRemoteDialogEvent :=
    {| a_type := Some Event; a_name := Some cancelAllSkillDialogsEventName;
       a_text := a_text reply; a_speak := a_speak reply; a_value := a_value reply;
       a_from := a_from reply; a_recipient := a_recipient reply;
       a_semanticAction := a_semanticAction reply |} in
  let r := forwardToSkill skillManifest cancelRemoteDialogEvent false false this in
  (fw_next r, match fw_outcome r with inl e => inl e | inr _ => inr tt end).

Definition disconnect (this : t) : t :=
  match streamingTransportClient this with
  | Some c => {| streamingTransportClient :=
                   Some {| c_url := c_url c; c_connected := false;
                           c_tokenRequestHandler := c_tokenRequestHandler c;
                           c_fallbackHandler := c_fallbackHandler c |};
                 handoffActivity := handoffActivity this;
                 exchanges := exchanges this;
                 posted := posted this |}
  | None => this
  end.

#[export] Instance transport : ISkillTransport t := {|
  transport_forwardToSkill := fun m _ a tok fb this => forwardToSkill m a tok fb this;
  transport_cancelRemoteDialogs := cancelRemoteDialogs;
  transport_disconnect := disconnect
|}.

End WithImports.

End SkillWebSocketTransport.

(** ** SkillDialog *)

Inductive Nullable (A : Type) := undefined | null | object (a : A).
Arguments undefined {A}.
Arguments null {A}.
Arguments object {A}.

Definition defined {A} (x : Nullable A) : bool :=
  match x with undefined => false | _ => true end.

Abbreviation SkillContext := (gmap string Obj).

Record SkillDialogOption := { action : string }.

Record ISkillSwitchConfirmOption := {
  fallbackHandledEvent : Activity;
  targetIntent : string;
  userInputActivity : Activity
}.

(** [recognizeSkillIntentAsync] reads the activity of the turn and names a
    skill, or nothing; the method itself may be missing. *)
Record ISkillIntentRecognizer := {
  r_recognizeSkillIntentAsync : option (Activity -> option string);
  r_confirmIntentSwitch : bool
}.

Inductive DialogIds := confirmSkillSwitchPrompt | confirmSkillSwitchFlow.

Inductive DialogReason :=
  beginCalled | continueCalled | endCalled | replaceCalled | cancelCalled | nextCalled.

(** The dialogs of the component's inner dialog set, as they sit on the
    inner dialog stack: the authentication dialog, the two-step waterfall
    (its options and the index of its current step) and the confirm prompt
    (the prompt it repeats). *)
Inductive DialogInstance :=
| AuthDialog
| SkillSwitchFlow (options : Nullable ISkillSwitchConfirmOption) (stepIndex : nat)
| SkillSwitchPrompt (prompt : Activity).

(** The value of [this] inside a method.  A method called on the dialog
    has the dialog; the two steps of the waterfall are stored unbound by
    the constructor ([[ this.confirmIntentSwitch, this.finishIntentSwitch ]])
    and called by the waterfall as elements of its list of steps, so they
    have that list, which has none of the dialog's fields and methods. *)
Inductive Receiver := TheDialog | TheSteps.

(** The readonly fields of a [SkillDialog]; its [id] is the manifest's, and
    [authDialog] tells whether an authentication dialog was given. *)
Record SkillDialog := {
  skillManifest : ISkillManifest;
  authDialog : bool;
  skillIntentRecognizer : option ISkillIntentRecognizer
}.

(** What a turn can observe and change: the activity of the turn context,
    the [SkillContext] kept in user state, the inner dialog stack (active
    dialog first), the dialog's queue, the activities sent to the host
    surface with [sendActivity] (newest last) and the transport. *)
Record World (T : Type) := {
  w_activity : Activity;
  w_skillContext : SkillContext;
  w_stack : list DialogInstance;
  w_queuedResponses : list Activity;
  w_authDialogCancelled : bool;
  w_sent : list Activity;
  w_skillTransport : T
}.
Arguments w_activity {T}.
Arguments w_skillContext {T}.
Arguments w_stack {T}.
Arguments w_queuedResponses {T}.
Arguments w_authDialogCancelled {T}.
Arguments w_sent {T}.
Arguments w_skillTransport {T}.

(** A computation returns a value or throws, and changes the world on the
    way; [None] is a computation that was given too little fuel. *)
Definition M (T A : Type) : Type := World T -> option ((Error + A) * World T).

#[export] Instance M_ret {T} : MRet (M T) := fun A a w => Some (inr a, w).

#[export] Instance M_bind {T} : MBind (M T) := fun A B f m w =>
  match m w with
  | None => None
  | Some (inl e, w') => Some (inl e, w')
  | Some (inr a, w') => f a w'
  end.

#[export] Instance M_throw {T} : MThrow Error (M T) := fun A e w => Some (inl e, w).

Definition diverge {T A} : M T A := fun _ => None.

(** [try { m } catch (error) { h error }] *)
Definition tryCatch {T A} (m : M T A) (h : Error -> M T A) : M T A := fun w =>
  match m w with
  | Some (inl e, w') => h e w'
  | r => r
  end.

(** A handler the transport calls: what it throws does not reach the call
    that is waiting for the transport. *)
Definition detached {T} (m : M T unit) : M T unit := tryCatch m (fun _ => mret tt).

Definition get {T} : M T (World T) := fun w => Some (inr w, w).
Definition modify {T} (f : World T -> World T) : M T unit := fun w => Some (inr tt, f w).
Definition settle {T A} (r : Error + A) : M T A :=
  match r with inl e => mthrow e | inr a => mret a end.

Section Setters.
Context {T : Type}.

Definition set_activity (a : Activity) (w : World T) : World T :=
  {| w_activity := a; w_skillContext := w_skillContext w; w_stack := w_stack w;
     w_queuedResponses := w_queuedResponses w;
     w_authDialogCancelled := w_authDialogCancelled w; w_sent := w_sent w;
     w_skillTransport := w_skillTransport w |}.

Definition set_stack (s : list DialogInstance) (w : World T) : World T :=
  {| w_activity := w_activity w; w_skillContext := w_skillContext w; w_stack := s;
     w_queuedResponses := w_queuedResponses w;
     w_authDialogCancelled := w_authDialogCancelled w; w_sent := w_sent w;
     w_skillTransport := w_skillTransport w |}.

Definition set_queuedResponses (q : list Activity) (w : World T) : World T :=
  {| w_activity := w_activity w; w_skillContext := w_skillContext w; w_stack := w_stack w;
     w_queuedResponses := q;
     w_authDialogCancelled := w_authDialogCancelled w; w_sent := w_sent w;
     w_skillTransport := w_skillTransport w |}.

Definition set_authDialogCancelled (b : bool) (w : World T) : World T :=
  {| w_activity := w_activity w; w_skillContext := w_skillContext w; w_stack := w_stack w;
     w_queuedResponses := w_queuedResponses w;
     w_authDialogCancelled := b; w_sent := w_sent w;
     w_skillTransport := w_skillTransport w |}.

Definition set_sent (s : list Activity) (w : World T) : World T :=
  {| w_activity := w_activity w; w_skillContext := w_skillContext w; w_stack := w_stack w;
     w_queuedResponses := w_queuedResponses w;
     w_authDialogCancelled := w_authDialogCancelled w; w_sent := s;
     w_skillTransport := w_skillTransport w |}.

Definition set_skillTransport (t : T) (w : World T) : World T :=
  {| w_activity := w_activity w; w_skillContext := w_skillContext w; w_stack := w_stack w;
     w_queuedResponses := w_queuedResponses w;
     w_authDialogCancelled := w_authDialogCancelled w; w_sent := w_sent w;
     w_skillTransport := t |}.

(** [context.sendActivity(a)]: the host surface receives [a]. *)
Definition sendActivity (a : Activity) : M T unit :=
  modify (fun w => set_sent (w_sent w ++ [a]) w).

End Setters.

Definition noActivity : Activity :=
  {| a_type := None; a_name := None; a_text := None; a_speak := None; a_value := None;
     a_from := None; a_recipient := None; a_semanticAction := None |}.

(** [{ type: ActivityTypes.Trace, text }] *)
Definition traceActivity (text : string) : Activity :=
  {| a_type := Some Trace; a_name := None; a_text := Some text; a_speak := None;
     a_value := None; a_from := None; a_recipient := None; a_semanticAction := None |}.

(** [{ type: ActivityTypes.Message, text, speak }] *)
Definition messageActivity (text speak : string) : Activity :=
  {| a_type := Some Message; a_name := None; a_text := Some text; a_speak := Some speak;
     a_value := None; a_from := None; a_recipient := None; a_semanticAction := None |}.

Definition with_semanticAction (sa : option SemanticAction) (a : Activity) : Activity :=
  {| a_type := a_type a; a_name := a_name a; a_text := a_text a; a_speak := a_speak a;
     a_value := a_value a; a_from := a_from a; a_recipient := a_recipient a;
     a_semanticAction := sa |}.

Definition with_name (n : string) (a : Activity) : Activity :=
  {| a_type := a_type a; a_name := Some n; a_text := a_text a; a_speak := a_speak a;
     a_value := a_value a; a_from := a_from a; a_recipient := a_recipient a;
     a_semanticAction := a_semanticAction a |}.

(** [a.type = Event; a.name = n; a.value = v] *)
Definition as_event (n : string) (v : option Value) (a : Activity) : Activity :=
  {| a_type := Some Event; a_name := Some n; a_text := a_text a; a_speak := a_speak a;
     a_value := v; a_from := a_from a; a_recipient := a_recipient a;
     a_semanticAction := a_semanticAction a |}.

(** [a.text = t; a.speak = s] *)
Definition with_input (t : option string) (s : option string) (a : Activity) : Activity :=
  {| a_type := a_type a; a_name := a_name a; a_text := t; a_speak := s;
     a_value := a_value a; a_from := a_from a; a_recipient := a_recipient a;
     a_semanticAction := a_semanticAction a |}.

(** Truthiness of a dialog result value. *)
Definition truthy (v : option Value) : bool :=
  match v with
  | None => false
  | Some (VBool b) => b
  | Some (VString s) => negb (Js.falsy s)
  | Some _ => true
  end.

Module SkillDialog.

Section Dialog.
Context {T : Type} `{ISkillTransport T} `{Imports}.
Variable this : SkillDialog.

#[local] Abbreviation M := (M T).

(** [this.skillTransport.cancelRemoteDialogs(this.skillManifest, ..., context)] *)
Definition skillTransport_cancelRemoteDialogs : M unit := fun w =>
  let '(t, r) := transport_cancelRemoteDialogs (skillManifest this) (w_activity w)
                   (w_skillTransport w) in
  settle r (set_skillTransport t w).

(** [this.skillTransport.disconnect()] *)
Definition skillTransport_disconnect : M unit :=
  modify (fun w => set_skillTransport (transport_disconnect (w_skillTransport w)) w).

(** [stepContext.prompt(DialogIds.confirmSkillSwitchPrompt, { prompt })]:
    the prompt becomes the active dialog, asks and ends the turn. *)
Definition prompt (p : Activity) : M DialogTurnResult :=
  modify (fun w => set_stack (SkillSwitchPrompt p :: w_stack w) w);;
  sendActivity p;;
  mret {| status := waiting; result := None |}.

(** The callbacks of one transport call reach their handlers in order;
    [forwardToSkill] passes a token-request handler only. *)
Fixpoint deliver (tokenRequestHandler : Activity -> M unit)
    (requests : list CallbackRequest) : M unit :=
  match requests with
  | [] => mret tt
  | TokenRequest a :: rest =>
      detached (tokenRequestHandler a);; deliver tokenRequestHandler rest
  | _ :: rest => deliver tokenRequestHandler rest
  end.

(** The methods that call each other, with the operations of the inner
    [DialogContext] they go through: [beginDialog], [continueDialog],
    [endDialog] and the resumption of a parent dialog. *)
Fixpoint forwardToSkill (fuel : nat) (activity : Activity) {struct fuel}
  : M DialogTurnResult :=
  match fuel with
  | O => diverge
  | S fuel =>
      tryCatch
        (handoffActivity ← skillTransport_forwardToSkill fuel activity;
         match handoffActivity with
         | Some handoffActivity =>
             sendActivity (traceActivity
               ("<--Ending the skill conversation with the " +:+ m_name (skillManifest this)
                +:+ " Skill and handing off to Parent Bot."));;
             dc_endDialog fuel
               (match a_semanticAction handoffActivity with
                | Some semanticAction => Some (VEntities (sa_entities semanticAction))
                | None => None
                end)
         | None =>
             whileQueuedResponses fuel {| status := waiting; result := None |}
         end)
        (fun error => dc_endDialog fuel None;; mthrow error)
  end

(** [await this.skillTransport.forwardToSkill(..., activity,
    this.getTokenRequestCallback(innerDc))] *)
with skillTransport_forwardToSkill (fuel : nat) (activity : Activity) {struct fuel}
  : M (option Activity) :=
  match fuel with
  | O => diverge
  | S fuel => fun w =>
      let r := transport_forwardToSkill (skillManifest this) (w_activity w) activity
                 true false (w_skillTransport w) in
      (deliver (getTokenRequestCallback fuel) (fw_delivered r);;
       settle (fw_outcome r)) (set_skillTransport (fw_next r) w)
  end

(** [while (this.queuedResponses.length > 0) { ... } return dialogResult] *)
with whileQueuedResponses (fuel : nat) (dialogResult : DialogTurnResult) {struct fuel}
  : M DialogTurnResult :=
  match fuel with
  | O => diverge
  | S fuel =>
      w ← get;
      if (0 <? List.length (w_queuedResponses w))%nat then
        let lastEvent := last (w_queuedResponses w) in
        modify (set_queuedResponses (removelast (w_queuedResponses w)));;
        let resend (lastEvent : option Activity) :=
          match lastEvent with
          | Some lastEvent =>
              dialogResult ← forwardToSkill fuel lastEvent;
              whileQueuedResponses fuel dialogResult
          | None => whileQueuedResponses fuel dialogResult
          end in
        if Js.strictEqStr (match lastEvent with Some _ => Js.Object | None => Js.Undefined end)
             fallbackEventName
        then
          match lastEvent with
          | None => mthrow (JsError "TypeError")
          | Some lastEvent =>
              (* Set fallback event to fallback handled event *)
              let lastEvent := with_name fallbackHandledEventName lastEvent in
              match skillIntentRecognizer this with
              | Some {| r_recognizeSkillIntentAsync := Some recognizeSkillIntentAsync;
                        r_confirmIntentSwitch := confirmIntentSwitch |} =>
                  match recognizeSkillIntentAsync (w_activity w) with
                  | Some recognizedSkillManifest =>
                      if negb (String.eqb recognizedSkillManifest (m_id (skillManifest this)))
                      then
                        if confirmIntentSwitch then
                          dc_beginDialog fuel (Some confirmSkillSwitchFlow)
                            (object {| fallbackHandledEvent := lastEvent;
                                       targetIntent := recognizedSkillManifest;
                                       userInputActivity := w_activity w |})
                        else
                          skillTransport_cancelRemoteDialogs;;
                          dc_endDialog fuel (Some (VString recognizedSkillManifest))
                      else resend (Some lastEvent)
                  | None => resend (Some lastEvent)
                  end
              | _ => resend (Some lastEvent)
              end
          end
        else resend lastEvent
      else mret dialogResult
  end

(** The token-request handler, applied to the request's activity. *)
with getTokenRequestCallback (fuel : nat) (activity : Activity) {struct fuel} : M unit :=
  match fuel with
  | O => diverge
  | S fuel =>
      sendActivity (traceActivity "<--Received a Token Request from a skill");;
      turnResult ← dc_beginDialog fuel None undefined;
      match status turnResult with
      | complete =>
          match result turnResult with
          | Some resultObj =>
              if isProviderTokenResponse
                   (Some (VDialogTurnResult (status turnResult) (result turnResult)))
              then
                let tokenEvent :=
                  as_event tokenResponseEventName (Some resultObj) (createReply activity) in
                modify (fun w => set_queuedResponses (w_queuedResponses w ++ [tokenEvent]) w)
              else modify (set_authDialogCancelled true)
          | None => modify (set_authDialogCancelled true)
          end
      | _ => mret tt
      end
  end

(** [dc.beginDialog(id, options)] on the inner dialog context; [None] is
    the id of the authentication dialog, which is the empty string when
    the dialog has none. *)
with dc_beginDialog (fuel : nat) (dialogId : option DialogIds)
    (options : Nullable ISkillSwitchConfirmOption) {struct fuel} : M DialogTurnResult :=
  match fuel with
  | O => diverge
  | S fuel =>
      match dialogId with
      | None =>
          if authDialog this then
            modify (fun w => set_stack (AuthDialog :: w_stack w) w);;
            w ← get;
            let turnResult := authDialogBegin (w_activity w) in
            match status turnResult with
            | waiting => mret turnResult
            | _ => dc_endDialog fuel (result turnResult)
            end
          else mthrow (JsError "DialogContext.beginDialog(): A dialog with an id of '' wasn't found.")
      | Some confirmSkillSwitchFlow =>
          modify (fun w => set_stack (SkillSwitchFlow options 0 :: w_stack w) w);;
          confirmIntentSwitch fuel options
      | Some confirmSkillSwitchPrompt =>
          prompt noActivity
      end
  end

with confirmIntentSwitch (fuel : nat) (options : Nullable ISkillSwitchConfirmOption)
    {struct fuel} : M DialogTurnResult :=
  match fuel with
  | O => diverge
  | S fuel =>
      match options with
      | object confirmOptions =>
          let newIntentName := targetIntent confirmOptions in
          let intentResponse := "Are you sure to switch to " +:+ newIntentName +:+ "?" in
          prompt (messageActivity intentResponse intentResponse)
      | _ =>
          (* stepContext.next() *)
          dc_resumeDialog fuel None
      end
  end

(** [stepResult] is [stepContext.result], the answer of the prompt;
    [receiver] is the value of [this]. *)
with finishIntentSwitch (fuel : nat) (receiver : Receiver)
    (options : Nullable ISkillSwitchConfirmOption)
    (stepResult : option Value) {struct fuel} : M DialogTurnResult :=
  match fuel with
  | O => diverge
  | S fuel =>
      match options with
      | object confirmOptions =>
          (* Do skill switching *)
          if defined options then
            (* 1) End remote skill dialog *)
            match receiver with
            | TheDialog => skillTransport_cancelRemoteDialogs
            | TheSteps =>
                (* this.skillTransport is undefined *)
                mthrow (JsError "TypeError: Cannot read property 'cancelRemoteDialogs' of undefined")
            end;;
            (* 2) Reset user input *)
            let activityText := a_text (userInputActivity confirmOptions) in
            modify (fun w => set_activity
               (with_input (Some (match activityText with Some t => t | None => "" end))
                           (a_speak (userInputActivity confirmOptions)) (w_activity w)) w);;
            (* 3) End dialog *)
            dc_endDialog fuel (Some (VBool true))
          else
            (* Cancel skill switching *)
            dialogResult ←
              match receiver with
              | TheDialog => forwardToSkill fuel (userInputActivity confirmOptions)
              | TheSteps =>
                  (* this.forwardToSkill is undefined *)
                  mthrow (JsError "TypeError: this.forwardToSkill is not a function")
              end;
            dc_endDialog fuel
              (Some (VDialogTurnResult (status dialogResult) (result dialogResult)))
      | _ =>
          (* We should never go here *)
          dc_endDialog fuel None
      end
  end

(** The active dialog is resumed with [value]: the waterfall runs its next
    step, or ends when it has none left; the other two ask again. *)
with dc_resumeDialog (fuel : nat) (value : option Value) {struct fuel}
  : M DialogTurnResult :=
  match fuel with
  | O => diverge
  | S fuel =>
      w ← get;
      match w_stack w with
      | SkillSwitchFlow options stepIndex :: rest =>
          let index := S stepIndex in
          if (index <? 2)%nat then
            modify (set_stack (SkillSwitchFlow options index :: rest));;
            finishIntentSwitch fuel TheSteps options value
          else dc_endDialog fuel value
      | SkillSwitchPrompt p :: _ =>
          sendActivity p;; mret {| status := waiting; result := None |}
      | AuthDialog :: _ => mret {| status := waiting; result := None |}
      | [] => mret {| status := complete; result := value |}
      end
  end

(** [dc.endDialog(value)]: the active dialog leaves the stack and its
    parent, when it has one, is resumed with [value]. *)
with dc_endDialog (fuel : nat) (value : option Value) {struct fuel} : M DialogTurnResult :=
  match fuel with
  | O => diverge
  | S fuel =>
      modify (fun w => set_stack (tl (w_stack w)) w);;
      dc_resumeDialog fuel value
  end.

(** [context.sendActivity] for each of [activities], in order. *)
Fixpoint sendActivities (activities : list Activity) : M unit :=
  match activities with
  | [] => mret tt
  | a :: rest => sendActivity a;; sendActivities rest
  end.

(** [dc.continueDialog()] on the inner dialog context.  With the
    authentication dialog active the result is that dialog's, as it is, and
    a dialog whose turn is not left waiting is no longer on the stack.  A
    confirm prompt that recognises an answer ends with it; otherwise it
    stays active and sends what it sends to ask again. *)
Definition dc_continueDialog (fuel : nat) : M DialogTurnResult :=
  w ← get;
  match w_stack w with
  | [] => mret {| status := empty; result := None |}
  | AuthDialog :: rest =>
      let turnResult := authDialogContinue (w_activity w) in
      match status turnResult with
      | waiting => mret turnResult
      | _ => modify (set_stack rest);; mret turnResult
      end
  | SkillSwitchPrompt p :: _ =>
      match recognizeConfirm (w_activity w) with
      | Some answer => dc_endDialog fuel (Some (VBool answer))
      | None =>
          sendActivities (confirmRetry (w_activity w) p);;
          mret {| status := waiting; result := None |}
      end
  | SkillSwitchFlow _ _ :: _ =>
      match a_type (w_activity w) with
      | Some Message => dc_resumeDialog fuel (VString <$> a_text (w_activity w))
      | _ => mret {| status := waiting; result := None |}
      end
  end.

(** [ComponentDialog.endDialog]: a cancelled component cancels its inner
    dialogs. *)
Definition super_endDialog (reason : DialogReason) : M unit :=
  match reason with
  | cancelCalled => modify (set_stack [])
  | _ => mret tt
  end.

Definition endDialog (reason : DialogReason) : M unit :=
  match reason with
  | cancelCalled =>
      (* when dialog is being ended/cancelled, send an activity to skill
         to cancel all dialogs on the skill side *)
      skillTransport_cancelRemoteDialogs
  | _ => mret tt
  end;;
  super_endDialog reason.

(** Modelled from the spec: the class [SkillContext] of [./skillContext] is
    not among the sources; the spec has it as a mutable mapping from slot
    name to an opaque value.  [getObj] is lookup, [setObj] is insertion and
    [forEachObj] visits every entry. *)
Definition getObj (key : string) (c : SkillContext) : option Obj := c !! key.
Definition setObj (key : string) (value : Obj) (c : SkillContext) : SkillContext :=
  <[key := value]> c.
Definition forEachObj {A} (c : SkillContext) (f : Obj -> string -> A -> A) (a : A) : A :=
  map_fold (fun index value a => f value index a) a c.

(** [actionSlots.forEach(async (slot) => { ... })]: each callback runs up to
    its [await], so the slot is set and the trace handed to the host
    surface before the next slot is looked at. *)
Fixpoint forEachSlot (actionSlots : list ISlot) (skillContext slots : SkillContext)
  : M SkillContext :=
  match actionSlots with
  | [] => mret slots
  | slot :: rest =>
      (* For each slot we check to see if there is an exact match *)
      match getObj (slot_name slot) skillContext with
      | Some value =>
          let slots := setObj (slot_name slot) value slots in
          sendActivity (traceActivity
            ("-->Matched the " +:+ slot_name slot
             +:+ " slot within SkillContext and passing to the Skill."));;
          forEachSlot rest skillContext slots
      | None => forEachSlot rest skillContext slots
      end
  end.

Definition matchSkillContextToSlots (actionSlots : list ISlot) (skillContext : SkillContext)
  : M SkillContext :=
  let slots : SkillContext := ∅ in
  if (0 <? List.length actionSlots)%nat then forEachSlot actionSlots skillContext slots
  else mret slots.

(** The distinct list of all slots of a manifest's actions:
    [actions.reduce((acc, curr) => acc.concat(curr.definition.slots.filter(
       slot => !acc.find(item => item.name === slot.name))), [])] *)
Definition skillSlots (actions : list IAction) : list ISlot :=
  fold_left
    (fun (acc : list ISlot) (curr : IAction) =>
       let currDistinct :=
         List.filter
           (fun slot =>
              match List.find (fun item => String.eqb (slot_name item) (slot_name slot)) acc with
              | Some _ => false
              | None => true
              end)
           (action_slots curr) in
       acc ++ currDistinct)
    actions [].

Definition actionNotFound (actionName : string) : Error :=
  JsError ("Passed Action (" +:+ actionName +:+ ") could not be found within the "
           +:+ m_id (skillManifest this) +:+ " skill manifest action definition.").

Definition onBeginDialog (fuel : nat) (options : option SkillDialogOption)
  : M DialogTurnResult :=
  let slots : SkillContext := ∅ in
  w ← get;
  let skillContext := w_skillContext w in
  let dialogOptions := match options with Some o => o | None => {| action := "" |} end in
  let actionName := action dialogOptions in
  let activity := w_activity w in
  (* only set SemanticAction if it's not populated *)
  match a_semanticAction activity with
  | Some _ =>
      let semanticAction := {| sa_id := actionName; sa_entities := ∅; sa_state := "" |} in
      '(semanticAction, slots) ←
        (if negb (Js.falsy actionName) || negb (String.eqb actionName "") then
           (* only set the semantic state if action is not empty *)
           let semanticAction :=
             {| sa_id := sa_id semanticAction; sa_entities := sa_entities semanticAction;
                sa_state := skillStart |} in
           match List.find (fun item => String.eqb (action_id item) actionName)
                   (m_actions (skillManifest this)) with
           | Some action =>
               if (0 <? List.length (action_slots action))%nat then
                 slots ← matchSkillContextToSlots (action_slots action) skillContext;
                 mret (semanticAction, slots)
               else mret (semanticAction, slots)
           | None => mthrow (actionNotFound actionName)
           end
         else
           slots ← matchSkillContextToSlots (skillSlots (m_actions (skillManifest this)))
                     skillContext;
           mret (semanticAction, slots));
      (* slots.forEachObj((value, index) => semanticAction.entities.push): the
         callback reads a property and calls nothing *)
      let semanticAction := forEachObj slots (fun value index sa => sa) semanticAction in
      modify (fun w => set_activity (with_semanticAction (Some semanticAction) (w_activity w)) w)
  | None => mret tt
  end;;
  sendActivity (traceActivity
    ("-->Handing off to the " +:+ m_name (skillManifest this) +:+ " skill."));;
  w ← get;
  dialogResult ← forwardToSkill fuel (w_activity w);
  skillTransport_disconnect;;
  mret dialogResult.

Definition onContinueDialog (fuel : nat) : M DialogTurnResult :=
  w ← get;
  returned ←
    match authDialog this, w_stack w with
    | true, AuthDialog :: _ =>
        (* Handle magic code auth *)
        turnResult ← dc_continueDialog fuel;
        match status turnResult with
        | complete =>
            if isProviderTokenResponse (result turnResult) then
              (* forward the token response to the skill *)
              modify (fun w => set_activity
                (as_event tokenResponseEventName (result turnResult) (w_activity w)) w);;
              mret None
            else mret (Some turnResult)
        | _ => mret (Some turnResult)
        end
    | _, _ => mret None
    end;
  match returned with
  | Some turnResult => mret turnResult
  | None =>
      w ← get;
      match w_stack w with
      | SkillSwitchPrompt _ :: _ =>
          turnResult ← dc_continueDialog fuel;
          match status turnResult with
          | complete =>
              (* SkillDialog only truely end when confirm skill switch. *)
              if truthy (result turnResult) then
                (* Restart and redispatch *)
                mret {| status := status turnResult;
                        result := Some (VRouterDialogTurnResult Restart) |}
              else mret {| status := waiting; result := result turnResult |}
          | _ => mret turnResult
          end
      | _ =>
          dialogResult ← forwardToSkill fuel (w_activity w);
          skillTransport_disconnect;;
          mret dialogResult
      end
  end.

(** The fallback handler: it queues a fallback event for the request. *)
Definition getFallbackCallback (activity : Activity) : M unit :=
  sendActivity (traceActivity "<--Received a fallback request from a skill");;
  let fallbackEvent := createReply activity in
  let fallbackEvent :=
    {| a_type := Some Event; a_name := Some fallbackEventName;
       a_text := a_text fallbackEvent; a_speak := a_speak fallbackEvent;
       a_value := a_value fallbackEvent; a_from := a_from fallbackEvent;
       a_recipient := a_recipient fallbackEvent;
       a_semanticAction := a_semanticAction fallbackEvent |} in
  modify (fun w => set_queuedResponses (w_queuedResponses w ++ [fallbackEvent]) w).

End Dialog.

End SkillDialog.

(** ** A second transport, for tests

    [ISkillTransport] is a constructor parameter of [SkillDialog].  This
    implementation answers the calls of [forwardToSkill] from a prepared
    list (no hand-off once the list is exhausted), raises no callback and
    records what it was asked to forward. *)
Module ScriptedTransport.

Record t := {
  replies : list (Error + option Activity);
  forwarded : list Activity;
  cancelled : nat
}.

Definition forwardToSkill (activity : Activity) (this : t) : Forwarded t :=
  {| fw_next := {| replies := tl (replies this);
                   forwarded := forwarded this ++ [activity];
                   cancelled := cancelled this |};
     fw_delivered := [];
     fw_outcome := hd (inr None) (replies this) |}.

Definition cancelRemoteDialogs (this : t) : t * (Error + unit) :=
  ({| replies := replies this; forwarded := forwarded this;
      cancelled := S (cancelled this) |}, inr tt).

#[export] Instance transport : ISkillTransport t := {|
  transport_forwardToSkill := fun _ _ a _ _ this => forwardToSkill a this;
  transport_cancelRemoteDialogs := fun _ _ this => cancelRemoteDialogs this;
  transport_disconnect := fun this => this
|}.

End ScriptedTransport.

(** ** The names of the spec, and the scenario of its last property *)

(** "Deduplicated by slot name (first occurrence kept)". *)
Fixpoint dedupByName (l : list ISlot) : list ISlot :=
  match l with
  | [] => []
  | slot :: rest =>
      slot :: List.filter (fun s => negb (String.eqb (slot_name s) (slot_name slot)))
                (dedupByName rest)
  end.

(** "The union of the slots of all actions in the manifest". *)
Definition allSlots (actions : list IAction) : list ISlot :=
  List.concat (List.map action_slots actions).

(** Whether a slot of this name is in [acc], whether a slot is new to [acc],
    and whether two slots differ in name. *)
Definition named (acc : list ISlot) (n : string) : bool :=
  match List.find (fun item => String.eqb (slot_name item) n) acc with
  | Some _ => true
  | None => false
  end.

Definition fresh (acc : list ISlot) (slot : ISlot) : bool := negb (named acc (slot_name slot)).

Definition differs (slot s : ISlot) : bool := negb (String.eqb (slot_name s) (slot_name slot)).

Module Sample.

(** Modelled from the spec: the constants of [./models] and
    [./skillConstants] and the helpers of [botbuilder-solutions] are not
    among the sources.  The event names are the well-known names of the
    spec and the start state is its [skill-start]; a reply goes from the
    recipient of an activity back to its sender; the confirm prompt
    understands [yes] and [no] and repeats its prompt after any other
    message; the authentication dialog waits for its user and completes
    with the text typed as a token. *)
#[export] Instance imports : Imports := {|
  createReply := fun source =>
    {| a_type := Some Message; a_name := None; a_text := Some ""; a_speak := None;
       a_value := None; a_from := a_recipient source; a_recipient := a_from source;
       a_semanticAction := a_semanticAction source |};
  isProviderTokenResponse := fun v =>
    match v with Some (VTokenResponse _) => true | _ => false end;
  skillStart := "skill-start";
  cancelAllSkillDialogsEventName := "cancel-all-skill-dialogs";
  fallbackEventName := "fallback-request";
  fallbackHandledEventName := "fallback-handled";
  tokenResponseEventName := "token-response";
  recognizeConfirm := fun a =>
    match a_text a with
    | Some "yes" => Some true
    | Some "no" => Some false
    | _ => None
    end;
  confirmRetry := fun a p =>
    match a_type a with
    | Some Message => [p]
    | _ => []
    end;
  authDialogBegin := fun _ => {| status := waiting; result := None |};
  authDialogContinue := fun a =>
    match a_text a with
    | Some t => {| status := complete; result := Some (VTokenResponse t) |}
    | None => {| status := cancelled; result := None |}
    end
|}.

Definition calendar : ISkillManifest :=
  {| m_id := "calendar"; m_name := "Calendar";
     m_endpoint := "https://calendar.example/api/skill/messages";
     m_msaAppId := "calendar-app-id";
     m_actions :=
       [ {| action_id := "createEvent";
            action_slots := [ {| slot_name := "date"; slot_type := "string" |} ] |} ] |}.

(** A manifest whose two actions share the slot [date]. *)
Definition planner : ISkillManifest :=
  {| m_id := "planner"; m_name := "Planner";
     m_endpoint := "http://planner.example/api/skill/messages";
     m_msaAppId := "planner-app-id";
     m_actions :=
       [ {| action_id := "createEvent";
            action_slots := [ {| slot_name := "date"; slot_type := "string" |};
                              {| slot_name := "title"; slot_type := "string" |} ] |};
         {| action_id := "moveEvent";
            action_slots := [ {| slot_name := "eventId"; slot_type := "string" |};
                              {| slot_name := "date"; slot_type := "datetime" |} ] |} ] |}.

Definition plannerDialog : SkillDialog :=
  {| skillManifest := planner; authDialog := false; skillIntentRecognizer := None |}.

Definition calendarDialog : SkillDialog :=
  {| skillManifest := calendar; authDialog := true; skillIntentRecognizer := None |}.

Definition skillContext : SkillContext :=
  <["date" := "tomorrow"]> (<["unrelated" := "x"]> ∅).

(** What the user typed. *)
Definition userSays (text : string) (sa : option SemanticAction) : Activity :=
  {| a_type := Some Message; a_name := None; a_text := Some text; a_speak := Some text;
     a_value := None; a_from := Some "user"; a_recipient := Some "assistant";
     a_semanticAction := sa |}.

Definition world {T} (a : Activity) (stack : list DialogInstance) (t : T) : World T :=
  {| w_activity := a; w_skillContext := skillContext; w_stack := stack;
     w_queuedResponses := []; w_authDialogCancelled := false; w_sent := [];
     w_skillTransport := t |}.

(** A socket transport that has not connected yet, and what the skill
    will do when called. *)
Definition socket (xs : list SkillWebSocketTransport.Exchange) : SkillWebSocketTransport.t :=
  {| SkillWebSocketTransport.streamingTransportClient := None;
     SkillWebSocketTransport.handoffActivity := None;
     SkillWebSocketTransport.exchanges := xs;
     SkillWebSocketTransport.posted := [] |}.

Definition scripted (rs : list (Error + option Activity)) : ScriptedTransport.t :=
  {| ScriptedTransport.replies := rs; ScriptedTransport.forwarded := [];
     ScriptedTransport.cancelled := 0 |}.

(** The skill hands the conversation back, with one entity. *)
Definition handoff : Activity :=
  {| a_type := Some EndOfConversation; a_name := None; a_text := None; a_speak := None;
     a_value := None; a_from := Some "calendar-app-id"; a_recipient := Some "assistant";
     a_semanticAction :=
       Some {| sa_id := "createEvent"; sa_entities := <["eventId" := "42"]> ∅;
               sa_state := "done" |} |}.

Definition handsOff : SkillWebSocketTransport.Exchange :=
  {| SkillWebSocketTransport.x_tokenFails := false;
     SkillWebSocketTransport.x_connectFails := false;
     SkillWebSocketTransport.x_sendFails := false;
     SkillWebSocketTransport.x_failsAfterDelivery := false;
     SkillWebSocketTransport.x_inbound := [Handoff handoff] |}.

(** The send is rejected before the request is written. *)
Definition sendFails : SkillWebSocketTransport.Exchange :=
  {| SkillWebSocketTransport.x_tokenFails := false;
     SkillWebSocketTransport.x_connectFails := false;
     SkillWebSocketTransport.x_sendFails := true;
     SkillWebSocketTransport.x_failsAfterDelivery := false;
     SkillWebSocketTransport.x_inbound := [] |}.

(** The send is rejected after the skill has handed the conversation
    back. *)
Definition sendFailsLate : SkillWebSocketTransport.Exchange :=
  {| SkillWebSocketTransport.x_tokenFails := false;
     SkillWebSocketTransport.x_connectFails := false;
     SkillWebSocketTransport.x_sendFails := true;
     SkillWebSocketTransport.x_failsAfterDelivery := true;
     SkillWebSocketTransport.x_inbound := [Handoff handoff] |}.




(** The options of a pending switch to the [email] skill, asked for when
    the user typed [send a mail]. *)
Definition switchToEmail : ISkillSwitchConfirmOption :=
  {| fallbackHandledEvent := with_name "fallback-handled" noActivity;
     targetIntent := "email";
     userInputActivity := userSays "send a mail" None |}.

Definition confirming : list DialogInstance :=
  [ SkillSwitchPrompt (messageActivity "Are you sure to switch to email?"
                                       "Are you sure to switch to email?");
    SkillSwitchFlow (object switchToEmail) 0 ].

(** A socket transport that is connected and holds the hand-off of an
    earlier call. *)
Definition handedOff : SkillWebSocketTransport.t :=
  {| SkillWebSocketTransport.streamingTransportClient :=
       Some {| SkillWebSocketTransport.c_url := "wss://calendar.example/api/skill/messages";
               SkillWebSocketTransport.c_connected := true;
               SkillWebSocketTransport.c_tokenRequestHandler := true;
               SkillWebSocketTransport.c_fallbackHandler := false |};
     SkillWebSocketTransport.handoffActivity := Some handoff;
     SkillWebSocketTransport.exchanges := [];
     SkillWebSocketTransport.posted := [] |}.

(** A manifest without endpoint. *)
Definition nowhere : ISkillManifest :=
  {| m_id := "nowhere"; m_name := "Nowhere"; m_endpoint := ""; m_msaAppId := "nowhere-app-id";
     m_actions := [] |}.

(** An event that names no recipient. *)
Definition unaddressed : Activity := with_name "ping" noActivity.

End Sample.

(** ** Names for the further properties *)

(** The body the socket transport posts for an activity: the activity with
    the skill's application id as recipient. *)
Definition toSkill (skillManifest : ISkillManifest) (activity : Activity) : Activity :=
  {| a_type := a_type activity; a_name := a_name activity; a_text := a_text activity;
     a_speak := a_speak activity; a_value := a_value activity; a_from := a_from activity;
     a_recipient := Some (m_msaAppId skillManifest);
     a_semanticAction := a_semanticAction activity |}.

Definition isHandoff (c : CallbackRequest) : bool :=
  match c with Handoff _ => true | _ => false end.

(** The callback requests a connection created with these handlers passes
    on. *)
Definition handled (tokenRequestHandler fallbackHandler : bool) (c : CallbackRequest) : bool :=
  match c with
  | TokenRequest _ => tokenRequestHandler
  | FallbackRequest _ => fallbackHandler
  | Handoff _ => false
  end.

(** The last hand-off among callback requests, or [previous]. *)
Definition lastHandoff (inbound : list CallbackRequest) (previous : option Activity)
  : option Activity :=
  fold_left (fun h c => match c with Handoff a => Some a | _ => h end) inbound previous.

(** The trace sent for a matched slot, and whether the context has a value
    under the name of a slot. *)
Definition slotTrace (slot : ISlot) : Activity :=
  traceActivity ("-->Matched the " +:+ slot_name slot
                 +:+ " slot within SkillContext and passing to the Skill.").

Definition present (skillContext : SkillContext) (slot : ISlot) : bool :=
  match skillContext !! slot_name slot with Some _ => true | None => false end.

(** A computation that leaves the dialog's queue as it found it, whether
    it returns or throws. *)
Definition keepsQueue {T A} (m : M T A) : Prop :=
  ∀ w r w', m w = Some (r, w') → w_queuedResponses w' = w_queuedResponses w.

(** Whether an error is the one [onBeginDialog] throws for an action the
    manifest does not have (its message is its own), and a computation
    that throws no such error. *)
Definition isActionNotFound (e : Error) : bool :=
  match e with
  | JsError message => String.prefix "Passed Action (" message
  | Rejected _ => false
  end.

Definition throwsNoActionNotFound {T A} (m : M T A) : Prop :=
  ∀ w e w', m w = Some (inl e, w') → isActionNotFound e = false.

(** What a run returned or threw, and the world it left. *)
Definition outcome {T A} (r : option ((Error + A) * World T)) : option (Error + A) :=
  fst <$> r.
Definition after {T A} (r : option ((Error + A) * World T)) : option (World T) :=
  snd <$> r.

(** * Properties *)

Section JsFacts.

Lemma prefix_app (p rest : string) : String.prefix p (p +:+ rest) = true.
Proof.
  induction p as [|c p IH]; simpl; [by destruct rest|].
  destruct (ascii_dec c c); [exact IH | congruence].
Qed.

Lemma skip_app (p rest : string) : Js.skip (String.length p) (p +:+ rest) = rest.
Proof. induction p as [|c p IH]; simpl; [by destruct rest | exact IH]. Qed.

(** Replacing a prefix puts the new prefix in front of the rest. *)
Lemma replace_prefix (p q rest : string) : Js.replace (p +:+ rest) p q = q +:+ rest.
Proof.
  assert (Hunfold : ∀ s, Js.replace s p q =
            if String.prefix p s then q +:+ Js.skip (String.length p) s
            else match s with
                 | EmptyString => EmptyString
                 | String c s' => String c (Js.replace s' p q)
                 end) by (intros [|c s]; reflexivity).
  rewrite Hunfold, prefix_app, skip_app. reflexivity.
Qed.

(** [startsWith] holds exactly of the strings made of the prefix and a rest. *)
Lemma startsWith_iff (s p : string) :
  Js.startsWith s p = true ↔ ∃ rest, s = p +:+ rest.
Proof.
  unfold Js.startsWith. split.
  - revert s. induction p as [|c p IH]; intros s Hp.
    + by exists s.
    + destruct s as [|d s]; simpl in Hp; [discriminate|].
      destruct (ascii_dec c d); [subst d | discriminate].
      destruct (IH s Hp) as [rest ->]. by exists rest.
  - intros [rest ->]. apply prefix_app.
Qed.

End JsFacts.

(** ** Endpoint normalization *)

Import SkillWebSocketTransport.

(** C9.  Endpoint normalization: a URL that begins with [http://] becomes
    the same URL with [ws://] in its place, a URL that begins with
    [https://] the same URL with [wss://] in its place, and every other
    URL that is not empty is returned as it is. *)
Theorem ensureWebSocketUrl_normalizes :
  (∀ rest, ensureWebSocketUrl ("http://" +:+ rest) = inr ("ws://" +:+ rest)) ∧
  (∀ rest, ensureWebSocketUrl ("https://" +:+ rest) = inr ("wss://" +:+ rest)) ∧
  (∀ url, url ≠ "" →
     Js.startsWith url "http://" = false →
     Js.startsWith url "https://" = false →
     ensureWebSocketUrl url = inr url).
Proof.
  split; [|split].
  - intros rest. unfold ensureWebSocketUrl.
    change (Js.falsy ("http://" +:+ rest)) with false. cbv iota.
    replace (Js.startsWith ("http://" +:+ rest) "http://") with true
      by (symmetry; apply startsWith_iff; eauto).
    by rewrite replace_prefix.
  - intros rest. unfold ensureWebSocketUrl.
    change (Js.falsy ("https://" +:+ rest)) with false. cbv iota.
    change (Js.startsWith ("https://" +:+ rest) "http://") with false. cbv iota.
    replace (Js.startsWith ("https://" +:+ rest) "https://") with true
      by (symmetry; apply startsWith_iff; eauto).
    by rewrite replace_prefix.
  - intros url Hne Hhttp Hhttps. unfold ensureWebSocketUrl.
    destruct url as [|c url]; [done|]. cbn [Js.falsy].
    by rewrite Hhttp, Hhttps.
Qed.

Lemma ensureWebSocketUrl_normalizes_witness :
  ensureWebSocketUrl "http://host/x" = inr "ws://host/x" ∧
  ensureWebSocketUrl "https://host/x" = inr "wss://host/x" ∧
  ensureWebSocketUrl "ws://host/x" = inr "ws://host/x".
Proof.
  destruct ensureWebSocketUrl_normalizes as (Hhttp & Hhttps & Hother).
  split; [exact (Hhttp "host/x") | split; [exact (Hhttps "host/x") |]].
  apply Hother; [discriminate | reflexivity | reflexivity].
Defined.

(** The empty URL is refused. *)
Lemma ensureWebSocketUrl_empty : ensureWebSocketUrl "" = inl (JsError "url is empty!").
Proof. reflexivity. Qed.

(** ** Slot matching *)

Section SlotMatching.
Context {T : Type}.
Implicit Types (w : World T) (S : list ISlot) (skillContext slots : SkillContext).

Lemma set_sent_same w : set_sent (w_sent w) w = w.
Proof. by destruct w. Qed.

Lemma bool_decide_cons_ne (name n : string) (l : list string) :
  name ≠ n → bool_decide (name ∈ n :: l) = bool_decide (name ∈ l).
Proof.
  intros Hne. apply bool_decide_ext. rewrite elem_of_cons.
  split; [intros [Heq|Hin]; [by destruct Hne | done] | by right].
Qed.

(** The loop adds to [slots] the entries of the context under the names
    of the slots, and touches nothing of the world but the trace log. *)
Lemma forEachSlot_spec S skillContext slots w :
  ∃ slots' traces,
    SkillDialog.forEachSlot S skillContext slots w
      = Some (inr slots', set_sent (w_sent w ++ traces) w) ∧
    ∀ name, slots' !! name =
      if bool_decide (name ∈ slot_name <$> S)
      then from_option Some (slots !! name) (skillContext !! name)
      else slots !! name.
Proof.
  induction S as [|slot S IH] in slots, w |- *.
  - exists slots, []. split.
    + cbn. by rewrite app_nil_r, set_sent_same.
    + intros name. rewrite bool_decide_eq_false_2; [done | apply not_elem_of_nil].
  - cbn [SkillDialog.forEachSlot]. unfold SkillDialog.getObj, SkillDialog.setObj.
    destruct (skillContext !! slot_name slot) as [value|] eqn:Hget.
    + destruct (IH (<[slot_name slot := value]> slots)
                   (set_sent (w_sent w ++ [traceActivity
                      ("-->Matched the " +:+ slot_name slot
                       +:+ " slot within SkillContext and passing to the Skill.")]) w))
        as (slots' & traces & Hrun & Hlook).
      exists slots', (traceActivity
                      ("-->Matched the " +:+ slot_name slot
                       +:+ " slot within SkillContext and passing to the Skill.") :: traces).
      split.
      * unfold mbind, M_bind, sendActivity, modify. rewrite Hrun. cbn [w_sent set_sent].
        by rewrite <- app_assoc.
      * intros name. rewrite Hlook, fmap_cons.
        destruct (decide (name = slot_name slot)) as [->|Hne].
        -- rewrite (bool_decide_eq_true_2 (_ ∈ _ :: _)) by apply list_elem_of_here.
           rewrite lookup_insert_eq, Hget. cbn. by case_bool_decide; rewrite ?Hget.
        -- rewrite lookup_insert_ne by done.
           by rewrite bool_decide_cons_ne.
    + destruct (IH slots w) as (slots' & traces & Hrun & Hlook).
      exists slots', traces. split; [done|].
      intros name. rewrite Hlook, fmap_cons.
      destruct (decide (name = slot_name slot)) as [->|Hne].
      * rewrite (bool_decide_eq_true_2 (_ ∈ _ :: _)) by apply list_elem_of_here.
        rewrite Hget. cbn. by case_bool_decide.
      * by rewrite bool_decide_cons_ne.
Qed.

(** C6.  For slots [S] and every SkillContext, the slot set that
    [matchSkillContextToSlots] produces holds, under each name, the value
    the SkillContext has under exactly that name when the name is one of
    [S], and nothing otherwise: no entry outside [S], no other name. *)
Theorem matchSkillContextToSlots_exact S skillContext w :
  ∃ slots w',
    SkillDialog.matchSkillContextToSlots S skillContext w = Some (inr slots, w') ∧
    ∀ name, slots !! name =
      if bool_decide (name ∈ slot_name <$> S) then skillContext !! name else None.
Proof.
  unfold SkillDialog.matchSkillContextToSlots.
  destruct S as [|slot S].
  - exists ∅, w. split; [done|]. intros name.
    rewrite bool_decide_eq_false_2; [apply lookup_empty | apply not_elem_of_nil].
  - cbn [List.length Nat.ltb Nat.leb].
    destruct (forEachSlot_spec (slot :: S) skillContext ∅ w)
      as (slots & traces & Hrun & Hlook).
    exists slots, (set_sent (w_sent w ++ traces) w). split; [done|].
    intros name. rewrite Hlook, lookup_empty.
    case_bool_decide; [by destruct (skillContext !! name) | done].
Qed.

End SlotMatching.

(** The scenario of the spec: of [date] and [unrelated], only [date] is a
    slot of [createEvent], so only [date] is passed. *)
Example calendar_slots :
  outcome (SkillDialog.matchSkillContextToSlots
             [ {| slot_name := "date"; slot_type := "string" |} ] Sample.skillContext
             (Sample.world (Sample.userSays "book it" None) [] tt))
  = Some (inr (<["date" := "tomorrow"]> ∅)).
Proof. vm_compute. reflexivity. Qed.

(** ** The distinct list of all slots *)

Section DistinctSlots.

Lemma named_app acc1 acc2 n : named (acc1 ++ acc2) n = named acc1 n || named acc2 n.
Proof.
  unfold named. induction acc1 as [|s acc1 IH]; cbn; [by destruct (List.find _ acc2)|].
  by destruct (String.eqb (slot_name s) n).
Qed.

Lemma filter_both {A} (P Q : A → bool) l :
  List.filter Q (List.filter P l) = List.filter (fun x => P x && Q x) l.
Proof.
  induction l as [|x l IH]; cbn; [done|].
  destruct (P x); cbn; [destruct (Q x)|]; by rewrite IH.
Qed.

Lemma filter_comm {A} (P Q : A → bool) l :
  List.filter Q (List.filter P l) = List.filter P (List.filter Q l).
Proof. rewrite !filter_both. apply List.filter_ext. intros x. apply andb_comm. Qed.

(** A filter that looks at names only commutes with the deduplication. *)
Lemma dedupByName_filter (q : string → bool) l :
  dedupByName (List.filter (fun s => q (slot_name s)) l)
  = List.filter (fun s => q (slot_name s)) (dedupByName l).
Proof.
  induction l as [|s l IH]; cbn; [done|].
  destruct (q (slot_name s)) eqn:Hq; cbn; rewrite IH.
  - f_equal. apply filter_comm.
  - rewrite filter_both. apply List.filter_ext. intros x.
    destruct (String.eqb (slot_name x) (slot_name s)) eqn:E; cbn; [|done].
    apply String.eqb_eq in E. by rewrite E, Hq.
Qed.

Lemma filter_differs_id slot l :
  ¬ In (slot_name slot) (List.map slot_name l) → List.filter (differs slot) l = l.
Proof.
  induction l as [|s l IH]; cbn; [done|]. intros Hnot.
  unfold differs at 1. destruct (String.eqb (slot_name s) (slot_name slot)) eqn:E.
  - apply String.eqb_eq in E. tauto.
  - cbn. rewrite IH; [done | tauto].
Qed.

Lemma fresh_cons slot acc s : fresh (slot :: acc) s = differs slot s && fresh acc s.
Proof.
  unfold fresh, differs, named. cbn.
  rewrite (String.eqb_sym (slot_name slot)).
  by destruct (String.eqb (slot_name s) (slot_name slot)).
Qed.

(** Behind a list with distinct names, what is left of [rest] is what is
    fresh for the list. *)
Lemma dedupByName_app l rest :
  List.NoDup (List.map slot_name l) →
  dedupByName (l ++ rest) = l ++ dedupByName (List.filter (fresh l) rest).
Proof.
  induction l as [|slot l IH]; cbn [app List.map dedupByName]; intros Hnd.
  - f_equal. symmetry. clear. induction rest as [|s rest IH]; cbn; [done|]. by rewrite IH.
  - apply List.NoDup_cons_iff in Hnd as [Hnot Hnd]. rewrite (IH Hnd). f_equal.
    rewrite List.filter_app. fold (differs slot). rewrite (filter_differs_id slot l Hnot).
    f_equal.
    unfold differs at 1.
    rewrite <- (dedupByName_filter (fun n => negb (String.eqb n (slot_name slot)))).
    f_equal. rewrite filter_both. apply List.filter_ext. intros s.
    rewrite fresh_cons. unfold differs. apply andb_comm.
Qed.

Lemma NoDup_map_filter {A B} (f : A → B) (P : A → bool) l :
  List.NoDup (List.map f l) → List.NoDup (List.map f (List.filter P l)).
Proof.
  induction l as [|x l IH]; cbn; [done|]. intros Hnd.
  apply List.NoDup_cons_iff in Hnd as [Hnot Hnd].
  destruct (P x); cbn; [|by apply IH].
  apply List.NoDup_cons; [|by apply IH].
  intros Hin. apply Hnot. apply List.in_map_iff in Hin as (y & Hy & Hin).
  apply List.filter_In in Hin as [Hin _]. apply List.in_map_iff. eauto.
Qed.

(** The reduction, started from any accumulator. *)
Lemma reduce_spec (actions : list IAction) (acc : list ISlot) :
  (∀ a, In a actions → List.NoDup (List.map slot_name (action_slots a))) →
  fold_left
    (fun (acc : list ISlot) (curr : IAction) =>
       acc ++ List.filter
                (fun slot =>
                   match List.find (fun item => String.eqb (slot_name item) (slot_name slot)) acc with
                   | Some _ => false
                   | None => true
                   end)
                (action_slots curr))
    actions acc
  = acc ++ dedupByName (List.filter (fresh acc) (allSlots actions)).
Proof.
  induction actions as [|a actions IH] in acc |- *; intros Hinv.
  - cbn. by rewrite app_nil_r.
  - cbn [fold_left]. rewrite IH by (intros; apply Hinv; by right).
    assert (Hsame : List.filter
              (fun slot =>
                 match List.find (fun item => String.eqb (slot_name item) (slot_name slot)) acc with
                 | Some _ => false
                 | None => true
                 end) (action_slots a) = List.filter (fresh acc) (action_slots a)).
    { apply List.filter_ext. intros s. unfold fresh, named. by destruct (List.find _ acc). }
    rewrite Hsame. clear Hsame.
    unfold allSlots. cbn [List.map List.concat]. fold (allSlots actions).
    rewrite <- app_assoc. f_equal.
    rewrite List.filter_app.
    rewrite dedupByName_app
      by (apply NoDup_map_filter, Hinv; by left).
    f_equal. f_equal. rewrite filter_both. apply List.filter_ext. intros s.
    unfold fresh. rewrite named_app. by rewrite negb_orb.
Qed.

End DistinctSlots.

(** The callback given to [forEachObj] calls nothing, so the entities of
    the semantic action stay as they were. *)
Lemma forEachObj_reads_only (slots : SkillContext) (semanticAction : SemanticAction) :
  SkillDialog.forEachObj slots (fun value index sa => sa) semanticAction = semanticAction.
Proof.
  unfold SkillDialog.forEachObj.
  apply (map_fold_weak_ind (fun r (_ : gmap string Obj) => r = semanticAction)); done.
Qed.

Section EmptyAction.
Context {T : Type} `{ISkillTransport T} `{Imports}.
Variable this : SkillDialog.

(** When slot names are unique within each action of the manifest (the
    invariant of the data model), the list [skillSlots] is the union of the
    slots of all actions, deduplicated by slot name with the first
    occurrence kept; and a begin with an empty action id matches exactly
    this list against the SkillContext before it hands off, provided the
    inbound activity carries a semantic action already. *)
Lemma skillSlots_distinct_union :
  (∀ a, In a (m_actions (skillManifest this)) →
        List.NoDup (List.map slot_name (action_slots a))) →
  SkillDialog.skillSlots (m_actions (skillManifest this))
    = dedupByName (allSlots (m_actions (skillManifest this))) ∧
  ∀ fuel semanticAction (w : World T),
    a_semanticAction (w_activity w) = Some semanticAction →
    SkillDialog.onBeginDialog this fuel (Some {| action := "" |}) w =
    (slots ← SkillDialog.matchSkillContextToSlots
               (dedupByName (allSlots (m_actions (skillManifest this))))
               (w_skillContext w);
     modify (fun w => set_activity
       (with_semanticAction (Some {| sa_id := ""; sa_entities := ∅; sa_state := "" |})
          (w_activity w)) w);;
     sendActivity (traceActivity
       ("-->Handing off to the " +:+ m_name (skillManifest this) +:+ " skill."));;
     w ← get;
     dialogResult ← SkillDialog.forwardToSkill this fuel (w_activity w);
     SkillDialog.skillTransport_disconnect;;
     mret dialogResult) w.
Proof.
  intros Hinv.
  assert (Hslots : SkillDialog.skillSlots (m_actions (skillManifest this))
                   = dedupByName (allSlots (m_actions (skillManifest this)))).
  { unfold SkillDialog.skillSlots. rewrite (reduce_spec _ [] Hinv).
    cbn [app]. f_equal.
    induction (allSlots _) as [|s l IH]; cbn; [done|]. by rewrite IH. }
  split; [exact Hslots|].
  intros fuel semanticAction w Hsa. unfold SkillDialog.onBeginDialog.
  unfold mbind at 1, M_bind at 1, get at 1. cbv beta iota. cbn [action].
  rewrite Hsa, Hslots. cbn [Js.falsy String.eqb negb orb].
  unfold mbind, M_bind.
  destruct (SkillDialog.matchSkillContextToSlots _ _ w) as [[[e|slots] w']|]; try done.
  unfold mret at 1, M_ret at 1. cbv beta iota.
  by rewrite forEachObj_reads_only.
Qed.

End EmptyAction.

(** ** Forwarding *)

Section Forwarding.
Context {T : Type} `{ISkillTransport T} `{Imports}.
Variable this : SkillDialog.
Implicit Types (w : World T).

Lemma forwardToSkill_unfold fuel activity :
  SkillDialog.forwardToSkill this (S fuel) activity =
  tryCatch
    (handoffActivity ← SkillDialog.skillTransport_forwardToSkill this fuel activity;
     match handoffActivity with
     | Some handoffActivity =>
         sendActivity (traceActivity
           ("<--Ending the skill conversation with the " +:+ m_name (skillManifest this)
            +:+ " Skill and handing off to Parent Bot."));;
         SkillDialog.dc_endDialog this fuel
           (match a_semanticAction handoffActivity with
            | Some semanticAction => Some (VEntities (sa_entities semanticAction))
            | None => None
            end)
     | None =>
         SkillDialog.whileQueuedResponses this fuel {| status := waiting; result := None |}
     end)
    (fun error => SkillDialog.dc_endDialog this fuel None;; mthrow error).
Proof. reflexivity. Qed.

(** Ending the active dialog when it has no parent completes the
    component with the value. *)
Lemma dc_endDialog_top fuel value w :
  (List.length (w_stack w) ≤ 1)%nat →
  SkillDialog.dc_endDialog this (S (S fuel)) value w
  = Some (inr {| status := complete; result := value |}, set_stack [] w).
Proof.
  intros Hstack. cbn. unfold mbind, M_bind, modify, get. cbn.
  destruct (w_stack w) as [|d [|d' rest]]; cbn in *; [done | done | lia].
Qed.


(** A transport call that hands no callback to a handler changes nothing
    of the world but the transport. *)
Lemma skillTransport_forwardToSkill_quiet fuel activity w :
  fw_delivered (transport_forwardToSkill (skillManifest this) (w_activity w) activity
                  true false (w_skillTransport w)) = [] →
  SkillDialog.skillTransport_forwardToSkill this (S fuel) activity w
  = settle (fw_outcome (transport_forwardToSkill (skillManifest this) (w_activity w)
                          activity true false (w_skillTransport w)))
      (set_skillTransport
         (fw_next (transport_forwardToSkill (skillManifest this) (w_activity w) activity
                     true false (w_skillTransport w))) w).
Proof. intros Hquiet. cbn. rewrite Hquiet. reflexivity. Qed.

(** Every pass of the loop sends the event it pops back to the skill as it
    was queued: the renaming and the recognizer are never reached. *)
Lemma whileQueuedResponses_resends fuel dialogResult w queue lastEvent :
  w_queuedResponses w = queue ++ [lastEvent] →
  SkillDialog.whileQueuedResponses this (S fuel) dialogResult w
  = (dialogResult ← SkillDialog.forwardToSkill this fuel lastEvent;
     SkillDialog.whileQueuedResponses this fuel dialogResult)
      (set_queuedResponses queue w).
Proof.
  intros Hqueue. cbn. unfold mbind at 1, M_bind at 1, get. cbv beta iota.
  rewrite Hqueue, length_app, Nat.add_comm. cbn [List.length Nat.add Nat.ltb Nat.leb].
  rewrite last_snoc, List.removelast_last. reflexivity.
Qed.

End Forwarding.

Section CalendarHandsOff.
#[local] Existing Instance Sample.imports.



End CalendarHandsOff.

(** ** Beginning *)

Section Beginning.
Context {T : Type} `{ISkillTransport T} `{Imports}.
Variable this : SkillDialog.
Implicit Types (w : World T).

(** When the inbound activity has no semantic action, the block that sets
    one is skipped: [onBeginDialog] is the hand-off trace, [forwardToSkill]
    on the activity as it is and the disconnection, whatever the requested
    action id. *)
Lemma onBeginDialog_without_semanticAction fuel options w :
  a_semanticAction (w_activity w) = None →
  SkillDialog.onBeginDialog this fuel options w =
  (sendActivity (traceActivity
     ("-->Handing off to the " +:+ m_name (skillManifest this) +:+ " skill."));;
   dialogResult ← SkillDialog.forwardToSkill this fuel (w_activity w);
   SkillDialog.skillTransport_disconnect;;
   mret dialogResult) w.
Proof.
  intros Hnone. unfold SkillDialog.onBeginDialog.
  unfold mbind at 1, M_bind at 1, get at 1. cbv beta iota.
  rewrite Hnone. reflexivity.
Qed.

(** With a semantic action on the inbound activity, an action id that the
    manifest does not have stops [onBeginDialog] before anything is sent:
    the error is thrown and the world is as it was. *)
Lemma onBeginDialog_action_not_found fuel actionName semanticAction w :
  a_semanticAction (w_activity w) = Some semanticAction →
  actionName ≠ "" →
  List.find (fun item => String.eqb (action_id item) actionName)
    (m_actions (skillManifest this)) = None →
  SkillDialog.onBeginDialog this fuel (Some {| action := actionName |}) w
  = Some (inl (SkillDialog.actionNotFound this actionName), w).
Proof.
  intros Hsa Hne Hfind. unfold SkillDialog.onBeginDialog.
  unfold mbind at 1, M_bind at 1, get at 1. cbv beta iota. cbn [action].
  rewrite Hsa, Hfind.
  destruct actionName as [|c rest]; [done|]. reflexivity.
Qed.

End Beginning.

Section CalendarBegins.
#[local] Existing Instance Sample.imports.

(** C5.  [onBeginDialog] on the calendar manifest, asked for the action
    [deleteEvent] that the manifest does not have, on an activity without a
    semantic action: no error is thrown, the activity is posted to the
    skill and the dialog completes with the skill's hand-off. *)
Theorem onBeginDialog_unknown_action_is_forwarded :
  let r := SkillDialog.onBeginDialog Sample.calendarDialog 6
             (Some {| action := "deleteEvent" |})
             (Sample.world (Sample.userSays "delete my meeting" None) []
                (Sample.socket [Sample.handsOff])) in
  List.find (fun item => String.eqb (action_id item) "deleteEvent")
    (m_actions Sample.calendar) = None ∧
  outcome r = Some (inr {| status := complete;
                           result := Some (VEntities (<["eventId" := "42"]> ∅)) |}) ∧
  posted <$> (w_skillTransport <$> after r)
  = Some [ {| a_type := Some Message; a_name := None; a_text := Some "delete my meeting";
              a_speak := Some "delete my meeting"; a_value := None; a_from := Some "user";
              a_recipient := Some "calendar-app-id"; a_semanticAction := None |} ].
Proof. vm_compute. repeat split. Qed.

(** C8.  [onBeginDialog] on the calendar manifest for [createEvent], with
    [date] in the SkillContext and a semantic action on the inbound
    activity: the slot [date] is matched, and the semantic action posted
    to the skill has the action's id and the start state but no entity. *)
Theorem onBeginDialog_posts_no_entities :
  let r := SkillDialog.onBeginDialog Sample.calendarDialog 6
             (Some {| action := "createEvent" |})
             (Sample.world
                (Sample.userSays "book it"
                   (Some {| sa_id := ""; sa_entities := ∅; sa_state := "" |}))
                [] (Sample.socket [Sample.handsOff])) in
  outcome (SkillDialog.matchSkillContextToSlots
             [ {| slot_name := "date"; slot_type := "string" |} ] Sample.skillContext
             (Sample.world (Sample.userSays "book it" None) [] tt))
  = Some (inr (<["date" := "tomorrow"]> ∅)) ∧
  outcome r = Some (inr {| status := complete;
                           result := Some (VEntities (<["eventId" := "42"]> ∅)) |}) ∧
  (List.map a_semanticAction <$> (posted <$> (w_skillTransport <$> after r)))
  = Some [ Some {| sa_id := "createEvent"; sa_entities := ∅; sa_state := "skill-start" |} ] ∧
  (List.map a_text <$> (w_sent <$> after r))
  = Some [ Some "-->Matched the date slot within SkillContext and passing to the Skill.";
           Some "-->Handing off to the Calendar skill.";
           Some "<--Ending the skill conversation with the Calendar Skill and handing off to Parent Bot." ].
Proof. vm_compute. repeat split. Qed.

(** C7.  [onBeginDialog] on the planner manifest with an empty action id,
    with [date] in the SkillContext, on an activity without a semantic
    action.  The union of the slots of all actions, deduplicated by name,
    has the slot [date], and matching it against the SkillContext would
    give [date]; but the block that builds and matches the list is skipped:
    no slot is matched (the hand-off trace is the first thing sent) and the
    activity is posted without a semantic action.  The same holds without
    options. *)
Theorem onBeginDialog_empty_action_matches_nothing :
  let activity := Sample.userSays "plan something" None in
  let w := Sample.world activity [] (Sample.socket [Sample.handsOff]) in
  let r := SkillDialog.onBeginDialog Sample.plannerDialog 6 (Some {| action := "" |}) w in
  dedupByName (allSlots (m_actions Sample.planner))
  = [ {| slot_name := "date"; slot_type := "string" |};
      {| slot_name := "title"; slot_type := "string" |};
      {| slot_name := "eventId"; slot_type := "string" |} ] ∧
  outcome (SkillDialog.matchSkillContextToSlots
             (dedupByName (allSlots (m_actions Sample.planner))) Sample.skillContext w)
  = Some (inr (<["date" := "tomorrow"]> ∅)) ∧
  outcome r = Some (inr {| status := complete;
                           result := Some (VEntities (<["eventId" := "42"]> ∅)) |}) ∧
  (List.map a_text <$> (w_sent <$> after r))
  = Some [ Some "-->Handing off to the Planner skill.";
           Some "<--Ending the skill conversation with the Planner Skill and handing off to Parent Bot." ] ∧
  (List.map a_semanticAction <$> (posted <$> (w_skillTransport <$> after r))) = Some [None] ∧
  SkillDialog.onBeginDialog Sample.plannerDialog 6 None w = r.
Proof. vm_compute. repeat split. Qed.

End CalendarBegins.

(** ** The switch of skills *)

Section Switching.
Context {T : Type} `{ISkillTransport T} `{Imports}.
Variable this : SkillDialog.

(** The second step of the waterfall does not look at the answer. *)
Lemma finishIntentSwitch_ignores_answer fuel receiver options
    (answer answer' : option Value) :
  SkillDialog.finishIntentSwitch this fuel receiver options answer
  = SkillDialog.finishIntentSwitch this fuel receiver options answer'.
Proof. destruct fuel; reflexivity. Qed.

(** An activity popped from the queue is never strictly equal to the name
    of the fallback event. *)
Lemma lastEvent_is_no_string (lastEvent : option Activity) :
  Js.strictEqStr (match lastEvent with Some _ => Js.Object | None => Js.Undefined end)
    fallbackEventName = false.
Proof. by destruct lastEvent. Qed.

End Switching.

Section CalendarSwitches.
#[local] Existing Instance Sample.imports.
#[local] Existing Instance ScriptedTransport.transport.

(** C1.  The user declines the switch to the [email] skill.  The answer
    [no] completes the confirm prompt and the waterfall runs its second
    step, which throws before it has cancelled, reset or forwarded
    anything: nothing is sent to the current skill.  The step called on
    the dialog itself would, on the same answer, cancel the remote
    dialogs, put the original input [send a mail] back on the activity and
    end with [true], the value [onContinueDialog] turns into Restart. *)
Theorem onContinueDialog_declined :
  let w := Sample.world (Sample.userSays "no" None) Sample.confirming (Sample.scripted []) in
  let r := SkillDialog.onContinueDialog Sample.calendarDialog 6 w in
  let r' := SkillDialog.finishIntentSwitch Sample.calendarDialog 6 TheDialog
              (object Sample.switchToEmail) (Some (VBool false))
              (set_stack [SkillSwitchFlow (object Sample.switchToEmail) 1] w) in
  recognizeConfirm (Sample.userSays "no" None) = Some false ∧
  outcome r = Some (inl (JsError
                "TypeError: Cannot read property 'cancelRemoteDialogs' of undefined")) ∧
  ScriptedTransport.forwarded <$> (w_skillTransport <$> after r) = Some [] ∧
  outcome r' = Some (inr {| status := complete; result := Some (VBool true) |}) ∧
  after r' = Some {| w_activity := Sample.userSays "send a mail" None;
                     w_skillContext := Sample.skillContext;
                     w_stack := [];
                     w_queuedResponses := [];
                     w_authDialogCancelled := false;
                     w_sent := [];
                     w_skillTransport :=
                       {| ScriptedTransport.replies := [];
                          ScriptedTransport.forwarded := [];
                          ScriptedTransport.cancelled := 1 |} |}.
Proof. vm_compute. repeat split. Qed.

(** C2.  A fallback request was queued by the fallback handler, no intent
    recognizer is configured and the transport yields no hand-off: the
    queued event is sent to the skill again under the name it was queued
    with, the name of the fallback request, not under the name of the
    handled event; the dialog keeps waiting. *)
Theorem forwardToSkill_resends_fallback_unrenamed :
  let request :=
    {| a_type := Some Event; a_name := Some "fallback-request"; a_text := None;
       a_speak := None; a_value := None; a_from := Some "calendar-app-id";
       a_recipient := Some "assistant"; a_semanticAction := None |} in
  let fallbackEvent :=
    {| a_type := Some Event; a_name := Some "fallback-request"; a_text := Some "";
       a_speak := None; a_value := None; a_from := Some "assistant";
       a_recipient := Some "calendar-app-id"; a_semanticAction := None |} in
  let w := Sample.world (Sample.userSays "what about lunch" None) [] (Sample.scripted []) in
  let r := SkillDialog.forwardToSkill Sample.calendarDialog 6
             (Sample.userSays "what about lunch" None)
             (set_queuedResponses [fallbackEvent] w) in
  w_queuedResponses <$> after (SkillDialog.getFallbackCallback request w)
    = Some [fallbackEvent] ∧
  outcome r = Some (inr {| status := waiting; result := None |}) ∧
  ScriptedTransport.forwarded <$> (w_skillTransport <$> after r)
    = Some [Sample.userSays "what about lunch" None; fallbackEvent] ∧
  a_name fallbackEvent = Some fallbackEventName ∧
  a_name fallbackEvent ≠ Some fallbackHandledEventName.
Proof. vm_compute. repeat split. discriminate. Qed.

End CalendarSwitches.

(** ** Ending *)

Section Ending.
Context {T : Type} `{ISkillTransport T} `{Imports}.
Variable this : SkillDialog.

(** C4.  Ending an invocation because of a cancellation first asks the
    transport to cancel the remote dialogs.  When that call succeeds, the
    inner dialogs are cancelled and the end completes; when it throws, the
    error leaves [endDialog] and the inner dialogs stay as they were. *)
Theorem endDialog_cancelCalled (w : World T) :
  SkillDialog.endDialog this cancelCalled w =
  match transport_cancelRemoteDialogs (skillManifest this) (w_activity w)
          (w_skillTransport w) with
  | (t, inr _) => Some (inr tt, set_stack [] (set_skillTransport t w))
  | (t, inl e) => Some (inl e, set_skillTransport t w)
  end.
Proof.
  unfold SkillDialog.endDialog, mbind, M_bind, SkillDialog.skillTransport_cancelRemoteDialogs.
  destruct (transport_cancelRemoteDialogs _ _ _) as [t [e|[]]]; reflexivity.
Qed.

(** For every other reason nothing is sent and nothing changes. *)
Lemma endDialog_not_cancelled reason (w : World T) :
  reason ≠ cancelCalled → SkillDialog.endDialog this reason w = Some (inr tt, w).
Proof. by destruct reason. Qed.

End Ending.

(** The socket transport's [cancelRemoteDialogs] is one [forwardToSkill] of
    the cancel event, without handlers: it throws whatever that call
    throws. *)
Lemma cancelRemoteDialogs_throws `{Imports} skillManifest turnActivity this e :
  fw_outcome (forwardToSkill skillManifest
    {| a_type := Some Event; a_name := Some cancelAllSkillDialogsEventName;
       a_text := a_text (createReply turnActivity);
       a_speak := a_speak (createReply turnActivity);
       a_value := a_value (createReply turnActivity);
       a_from := a_from (createReply turnActivity);
       a_recipient := a_recipient (createReply turnActivity);
       a_semanticAction := a_semanticAction (createReply turnActivity) |}
    false false this) = inl e →
  snd (cancelRemoteDialogs skillManifest turnActivity this) = inl e.
Proof. intros Hthrows. unfold cancelRemoteDialogs. cbn. by rewrite Hthrows. Qed.

Section CalendarEnds.
#[local] Existing Instance Sample.imports.

(** The send of the cancel event fails: [endDialog] throws, and the
    authentication dialog is still on the inner stack. *)
Lemma endDialog_cancel_throws :
  SkillDialog.endDialog Sample.calendarDialog cancelCalled
    (Sample.world (Sample.userSays "never mind" None) [AuthDialog]
       (Sample.socket [Sample.sendFails]))
  = Some (inl (JsError "Callback failed"),
          Sample.world (Sample.userSays "never mind" None) [AuthDialog]
            {| streamingTransportClient :=
                 Some {| c_url := "wss://calendar.example/api/skill/messages";
                         c_connected := true; c_tokenRequestHandler := false;
                         c_fallbackHandler := false |};
               handoffActivity := None;
               exchanges := [];
               posted := [] |}).
Proof. vm_compute. reflexivity. Qed.

End CalendarEnds.

Section PlannerBegins.
#[local] Existing Instance Sample.imports.
#[local] Existing Instance ScriptedTransport.transport.

Lemma skillSlots_distinct_union_witness :
  SkillDialog.skillSlots (m_actions Sample.planner)
  = [ {| slot_name := "date"; slot_type := "string" |};
      {| slot_name := "title"; slot_type := "string" |};
      {| slot_name := "eventId"; slot_type := "string" |} ] ∧
  a_semanticAction
    (w_activity (Sample.world
       (Sample.userSays "plan something"
          (Some {| sa_id := ""; sa_entities := ∅; sa_state := "" |}))
       [] (Sample.scripted [])))
  = Some {| sa_id := ""; sa_entities := ∅; sa_state := "" |} ∧
  outcome
    (SkillDialog.onBeginDialog Sample.plannerDialog 6
       (Some {| action := "" |})
       (Sample.world
          (Sample.userSays "plan something"
             (Some {| sa_id := ""; sa_entities := ∅; sa_state := "" |}))
          [] (Sample.scripted [])))
  = Some (inr {| status := waiting; result := None |}).
Proof.
  destruct (@skillSlots_distinct_union ScriptedTransport.t ScriptedTransport.transport
              Sample.imports Sample.plannerDialog) as [Hslots Hbegin].
  - intros a [<-|[<-|[]]]; cbn; repeat constructor; cbn; intuition discriminate.
  - split; [exact Hslots | split; [reflexivity|]].
    rewrite (Hbegin 6 {| sa_id := ""; sa_entities := ∅; sa_state := "" |}) by reflexivity.
    vm_compute. reflexivity.
Defined.

End PlannerBegins.

(** A name that is twice among the slots of one action stays twice in the
    list: the reduction compares a slot with the slots of earlier actions
    only. *)
Example skillSlots_within_one_action :
  SkillDialog.skillSlots
    [ {| action_id := "createEvent";
         action_slots := [ {| slot_name := "date"; slot_type := "string" |};
                           {| slot_name := "date"; slot_type := "datetime" |} ] |} ]
  = [ {| slot_name := "date"; slot_type := "string" |};
      {| slot_name := "date"; slot_type := "datetime" |} ].
Proof. reflexivity. Qed.

(** * Further properties *)

(** ** The socket transport *)

(** The request handler passes on, in order, the requests that have a
    handler, and keeps the last hand-off. *)
Lemma receive_spec tok fb inbound previous :
  receive tok fb inbound previous
  = (List.filter (handled tok fb) inbound, lastHandoff inbound previous).
Proof.
  unfold lastHandoff.
  induction inbound as [|c inbound IH] in previous |- *; [done|].
  destruct c as [a|a|a]; cbn [receive List.filter handled fold_left].
  - rewrite IH. by destruct tok.
  - rewrite IH. by destruct fb.
  - by rewrite IH.
Qed.

Lemma lastHandoff_none inbound previous :
  (∀ a, ¬ In (Handoff a) inbound) → lastHandoff inbound previous = previous.
Proof.
  unfold lastHandoff.
  induction inbound as [|c inbound IH] in previous |- *; intros Hnone; [done|].
  cbn [fold_left]. destruct c as [a|a|a].
  - apply IH. intros b Hb. apply (Hnone b). by right.
  - apply IH. intros b Hb. apply (Hnone b). by right.
  - destruct (Hnone a). by left.
Qed.

(** Every way through [forwardToSkill]: the connection exists or is
    created (or the URL is refused), the token and the connection are
    obtained or not, the activity has a recipient or not, the send works,
    or is rejected early or late. *)
Ltac socket_cases skillManifest activity this :=
  unfold forwardToSkill;
  destruct (streamingTransportClient this) as [?c|] eqn:?Hclient;
    [|destruct (ensureWebSocketUrl (m_endpoint skillManifest)) as [?e|?url] eqn:?Hurl];
  cbn [fw_next fw_outcome fw_delivered streamingTransportClient handoffActivity
       exchanges posted];
  rewrite ?receive_spec;
  try (destruct (x_tokenFails (hd quiet (exchanges this))) eqn:?Htoken;
       [|destruct (x_connectFails (hd quiet (exchanges this))) eqn:?Hconnect;
         [|destruct (a_recipient activity) as [?recipient|] eqn:?Hrecipient;
           [destruct (x_sendFails (hd quiet (exchanges this))) eqn:?Hsend;
            [destruct (x_failsAfterDelivery (hd quiet (exchanges this))) eqn:?Hlate|]|]]]);
  cbn [fw_next fw_outcome fw_delivered streamingTransportClient handoffActivity
       exchanges posted c_url c_connected c_tokenRequestHandler c_fallbackHandler].

Section SocketTransport.
Implicit Types (this : SkillWebSocketTransport.t) (skillManifest : ISkillManifest).

(** X1.  A call of the socket transport's [forwardToSkill] never resolves
    without a hand-off: it throws or resolves to the hand-off the
    transport holds after the call. *)
Theorem socket_forwardToSkill_resolves_to_handoff skillManifest activity tok fb this :
  fw_outcome (forwardToSkill skillManifest activity tok fb this) ≠ inr None ∧
  ∀ h, fw_outcome (forwardToSkill skillManifest activity tok fb this) = inr (Some h) →
       handoffActivity (fw_next (forwardToSkill skillManifest activity tok fb this)) = Some h.
Proof.
  socket_cases skillManifest activity this;
    try (split; [discriminate | intros h; discriminate]);
    match goal with
    | |- context [match ?h with Some _ => _ | None => _ end] =>
        destruct h eqn:Hh; cbn; (split; [discriminate | by intros ? [= <-]])
    end.
Qed.

(** X2.  The hand-off a transport has received stays with it: when the
    connection exists, nothing fails and the skill raises no hand-off
    during the call, [forwardToSkill] resolves to the hand-off of an
    earlier call. *)
Theorem socket_forwardToSkill_stale_handoff skillManifest activity tok fb this c h :
  streamingTransportClient this = Some c →
  handoffActivity this = Some h →
  x_tokenFails (hd quiet (exchanges this)) = false →
  x_connectFails (hd quiet (exchanges this)) = false →
  x_sendFails (hd quiet (exchanges this)) = false →
  (∀ a, ¬ In (Handoff a) (x_inbound (hd quiet (exchanges this)))) →
  fw_outcome (forwardToSkill skillManifest activity tok fb this) = inr (Some h).
Proof.
  intros Hc Hh Htok Hcon Hsnd Hnone. unfold forwardToSkill.
  rewrite Hc. cbn. rewrite Htok, Hcon.
  destruct (a_recipient activity); [rewrite receive_spec, Hsnd|]; cbn.
  - rewrite (lastHandoff_none _ _ Hnone), Hh. reflexivity.
  - rewrite Hh. reflexivity.
Qed.

(** X3.  An activity without recipient is not sent: nothing is posted, no
    callback is passed on and the stored hand-off stays as it was. *)
Theorem socket_forwardToSkill_no_recipient skillManifest activity tok fb this :
  a_recipient activity = None →
  posted (fw_next (forwardToSkill skillManifest activity tok fb this)) = posted this ∧
  fw_delivered (forwardToSkill skillManifest activity tok fb this) = [] ∧
  handoffActivity (fw_next (forwardToSkill skillManifest activity tok fb this))
    = handoffActivity this.
Proof.
  intros Hnone. socket_cases skillManifest activity this; try done;
    destruct (handoffActivity this); done.
Qed.

(** X4.  A call posts at most one body, the activity addressed to the
    skill's application id; what was posted before stays in front. *)
Theorem socket_forwardToSkill_posts_at_most_one skillManifest activity tok fb this :
  posted (fw_next (forwardToSkill skillManifest activity tok fb this)) = posted this ∨
  posted (fw_next (forwardToSkill skillManifest activity tok fb this))
    = posted this ++ [toSkill skillManifest activity].
Proof.
  socket_cases skillManifest activity this; try (by left); try (by right);
    match goal with
    | |- context [match ?h with Some _ => _ | None => _ end] =>
        destruct h; cbn; ((by left) || (by right))
    end.
Qed.


(** A send rejected after the skill has handed the conversation back: the
    call throws [Callback failed], and the body is posted and the hand-off
    stored all the same. *)
Example socket_forwardToSkill_late_rejection :
  let r := forwardToSkill Sample.calendar (Sample.userSays "book it" None) true false
             (Sample.socket [Sample.sendFailsLate]) in
  fw_outcome r = inl (JsError "Callback failed") ∧
  posted (fw_next r) = [toSkill Sample.calendar (Sample.userSays "book it" None)] ∧
  handoffActivity (fw_next r) = Some Sample.handoff.
Proof. vm_compute. repeat split. Qed.

(** X6.  A connection that exists is used again as it is: its URL and its
    handlers stay, whatever endpoint the manifest of the call names. *)
Theorem socket_forwardToSkill_reuses_connection skillManifest activity tok fb this c :
  streamingTransportClient this = Some c →
  ∃ c', streamingTransportClient (fw_next (forwardToSkill skillManifest activity tok fb this))
          = Some c' ∧
        c_url c' = c_url c ∧
        c_tokenRequestHandler c' = c_tokenRequestHandler c ∧
        c_fallbackHandler c' = c_fallbackHandler c.
Proof.
  intros Hc. unfold forwardToSkill. rewrite Hc. cbn.
  destruct (x_tokenFails _); [by eexists|].
  destruct (x_connectFails _); [by eexists|].
  rewrite ?receive_spec.
  destruct (a_recipient activity);
    [destruct (x_sendFails _); [destruct (x_failsAfterDelivery _); by eexists|]|];
    cbn;
    match goal with
    | |- context [match ?h with Some _ => _ | None => _ end] =>
        destruct h; cbn; by eexists
    end.
Qed.

(** X7.  The first call for a manifest without endpoint throws
    [url is empty!]; no connection is made and nothing is posted. *)
Theorem socket_forwardToSkill_empty_endpoint skillManifest activity tok fb this :
  streamingTransportClient this = None →
  m_endpoint skillManifest = "" →
  fw_outcome (forwardToSkill skillManifest activity tok fb this)
    = inl (JsError "url is empty!") ∧
  streamingTransportClient (fw_next (forwardToSkill skillManifest activity tok fb this))
    = None ∧
  posted (fw_next (forwardToSkill skillManifest activity tok fb this)) = posted this.
Proof.
  intros Hc Hurl. unfold forwardToSkill. rewrite Hc, Hurl. cbn. by rewrite ?Hc.
Qed.

(** X8.  A normalized endpoint is a fixed point: the result of
    [ensureWebSocketUrl] begins with neither [http://] nor [https://] and
    is returned as it is when normalized again. *)
Theorem ensureWebSocketUrl_idempotent (url normalized : string) :
  ensureWebSocketUrl url = inr normalized →
  Js.startsWith normalized "http://" = false ∧
  Js.startsWith normalized "https://" = false ∧
  ensureWebSocketUrl normalized = inr normalized.
Proof.
  unfold ensureWebSocketUrl at 1.
  destruct url as [|c url]; [discriminate|]. cbn [Js.falsy].
  destruct (Js.startsWith (String c url) "http://") eqn:Hhttp.
  - apply startsWith_iff in Hhttp as [rest ->]. rewrite replace_prefix.
    intros [= <-]. repeat split; reflexivity.
  - destruct (Js.startsWith (String c url) "https://") eqn:Hhttps.
    + apply startsWith_iff in Hhttps as [rest ->]. rewrite replace_prefix.
      intros [= <-]. repeat split; reflexivity.
    + intros [= <-]. repeat split; try done.
      unfold ensureWebSocketUrl. cbn [Js.falsy]. by rewrite Hhttp, Hhttps.
Qed.

(** X9.  Disconnecting is safe without a connection, does the same when
    done twice, and does not change what the next call resolves to, passes
    on, posts or stores. *)
Theorem socket_disconnect_then_forward skillManifest activity tok fb this :
  (streamingTransportClient this = None → disconnect this = this) ∧
  disconnect (disconnect this) = disconnect this ∧
  fw_outcome (forwardToSkill skillManifest activity tok fb (disconnect this))
    = fw_outcome (forwardToSkill skillManifest activity tok fb this) ∧
  fw_delivered (forwardToSkill skillManifest activity tok fb (disconnect this))
    = fw_delivered (forwardToSkill skillManifest activity tok fb this) ∧
  posted (fw_next (forwardToSkill skillManifest activity tok fb (disconnect this)))
    = posted (fw_next (forwardToSkill skillManifest activity tok fb this)) ∧
  handoffActivity (fw_next (forwardToSkill skillManifest activity tok fb (disconnect this)))
    = handoffActivity (fw_next (forwardToSkill skillManifest activity tok fb this)).
Proof.
  split; [intros Hn; unfold disconnect; by rewrite Hn|]. unfold disconnect.
  destruct (streamingTransportClient this) as [c|] eqn:Hc; cbn; [|by rewrite ?Hc].
  split; [done|].
  unfold forwardToSkill. cbn. rewrite ?Hc. cbn.
  destruct (x_tokenFails _); [done|].
  destruct (x_connectFails _); [done|].
  rewrite ?receive_spec.
  destruct (a_recipient activity);
    [destruct (x_sendFails _); [by destruct (x_failsAfterDelivery _)|]|];
    cbn;
    match goal with
    | |- context [match ?h with Some _ => _ | None => _ end] => by destruct h
    end.
Qed.

(** X10.  Cancelling the remote dialogs of a skill that has never handed
    off, and does not hand off now, always throws. *)
Theorem socket_cancelRemoteDialogs_without_handoff `{Imports}
    skillManifest turnActivity this :
  handoffActivity this = None →
  (∀ a, ¬ In (Handoff a) (x_inbound (hd quiet (exchanges this)))) →
  ∃ e, snd (cancelRemoteDialogs skillManifest turnActivity this) = inl e.
Proof.
  intros Hh Hnone. unfold cancelRemoteDialogs. cbn [snd].
  match goal with
  | |- context [forwardToSkill ?m ?a false false this] =>
      socket_cases m a this; try (by eexists);
        rewrite ?(lastHandoff_none _ _ Hnone), ?Hh; by eexists
  end.
Qed.

End SocketTransport.

(** ** Forwarding: errors, waiting, the queue *)

Section ForwardingFurther.
Context {T : Type} `{ISkillTransport T} `{Imports}.
Variable this : SkillDialog.
Implicit Types (w : World T).

(** X11.  When the transport call throws, and the active inner dialog has
    no parent beneath it, [forwardToSkill] ends the dialog and throws the
    same error again: the inner stack is empty and nothing else of the
    world changes after the call. *)
Theorem forwardToSkill_transport_throws fuel activity w error w1 :
  SkillDialog.skillTransport_forwardToSkill this (S (S fuel)) activity w
    = Some (inl error, w1) →
  (List.length (w_stack w1) ≤ 1)%nat →
  SkillDialog.forwardToSkill this (S (S (S fuel))) activity w
    = Some (inl error, set_stack [] w1).
Proof.
  intros Hcall Hstack.
  rewrite forwardToSkill_unfold. unfold tryCatch, mbind at 1, M_bind at 1. rewrite Hcall.
  unfold mbind, M_bind. rewrite dc_endDialog_top by exact Hstack. reflexivity.
Qed.

(** X12.  When the transport call yields no hand-off and nothing is
    queued, [forwardToSkill] returns the waiting status and leaves the
    world as the call left it: the dialog stays where it is. *)
Theorem forwardToSkill_waits fuel activity w w1 :
  SkillDialog.skillTransport_forwardToSkill this (S fuel) activity w
    = Some (inr None, w1) →
  w_queuedResponses w1 = [] →
  SkillDialog.forwardToSkill this (S (S fuel)) activity w
    = Some (inr {| status := waiting; result := None |}, w1).
Proof.
  intros Hcall Hqueue.
  rewrite forwardToSkill_unfold. unfold tryCatch, mbind at 1, M_bind at 1. rewrite Hcall.
  cbn. unfold mbind, M_bind, get. by rewrite Hqueue.
Qed.

End ForwardingFurther.

Section Draining.
Context `{Imports}.
#[local] Existing Instance ScriptedTransport.transport.
Variable this : SkillDialog.
Implicit Types (w : World ScriptedTransport.t).

(** The world after [activities] were forwarded and the queue drained. *)
Lemma forwardToSkill_drains_aux n :
  ∀ queue fuel activity w,
    List.length queue = n →
    (2 * n + 2 ≤ fuel)%nat →
    ScriptedTransport.replies (w_skillTransport w) = [] →
    w_queuedResponses w = queue →
    SkillDialog.forwardToSkill this fuel activity w
    = Some (inr {| status := waiting; result := None |},
            set_queuedResponses []
              (set_skillTransport
                 {| ScriptedTransport.replies := [];
                    ScriptedTransport.forwarded :=
                      ScriptedTransport.forwarded (w_skillTransport w)
                      ++ activity :: rev queue;
                    ScriptedTransport.cancelled :=
                      ScriptedTransport.cancelled (w_skillTransport w) |} w)).
Proof.
  induction n as [|n IH]; intros queue fuel activity w Hlen Hfuel Hreplies Hqueue.
  - destruct queue; [|done].
    destruct fuel as [|[|fuel]]; [lia | lia |].
    rewrite forwardToSkill_unfold. unfold tryCatch, mbind at 1, M_bind at 1.
    rewrite skillTransport_forwardToSkill_quiet by done.
    cbn. rewrite Hreplies. cbn. unfold mbind, M_bind, get. cbn. rewrite Hqueue. cbn.
    destruct w; cbn in *. by subst.
  - destruct (exists_last (l := queue)) as (queue' & lastEvent & ->);
      [by intros ->|].
    rewrite length_app in Hlen. cbn in Hlen.
    destruct fuel as [|[|fuel]]; [lia | lia |].
    rewrite forwardToSkill_unfold. unfold tryCatch, mbind at 1, M_bind at 1.
    rewrite skillTransport_forwardToSkill_quiet by done.
    cbn [ScriptedTransport.transport transport_forwardToSkill ScriptedTransport.forwardToSkill
         fw_outcome fw_next]. rewrite Hreplies. cbn [hd tl settle].
    unfold mret at 1, M_ret at 1.
    rewrite (whileQueuedResponses_resends this fuel _ _ queue' lastEvent) by exact Hqueue.
    unfold mbind at 1, M_bind at 1.
    rewrite (IH queue' fuel lastEvent) by (cbn; lia || done).
    cbn [w_skillTransport set_queuedResponses set_skillTransport
         ScriptedTransport.forwarded ScriptedTransport.cancelled w_queuedResponses].
    destruct fuel as [|fuel]; [lia|].
    cbn. unfold mbind, M_bind, get. cbn.
    rewrite rev_app_distr. cbn. rewrite <- app_assoc. cbn.
    reflexivity.
Qed.

(** X13.  With a transport that never hands off, [forwardToSkill] forwards
    the activity and then every queued activity, the last queued first,
    each as it was queued; it ends with the waiting status and an empty
    queue, whatever the length of the queue, given fuel for it. *)
Theorem forwardToSkill_drains_last_in_first_out queue fuel activity w :
  (2 * List.length queue + 2 ≤ fuel)%nat →
  ScriptedTransport.replies (w_skillTransport w) = [] →
  w_queuedResponses w = queue →
  SkillDialog.forwardToSkill this fuel activity w
  = Some (inr {| status := waiting; result := None |},
          set_queuedResponses []
            (set_skillTransport
               {| ScriptedTransport.replies := [];
                  ScriptedTransport.forwarded :=
                    ScriptedTransport.forwarded (w_skillTransport w)
                    ++ activity :: rev queue;
                  ScriptedTransport.cancelled :=
                    ScriptedTransport.cancelled (w_skillTransport w) |} w)).
Proof. intros Hfuel. by apply (forwardToSkill_drains_aux (List.length queue)). Qed.

End Draining.

(** ** Slots: traces, order, the distinct list *)

Section SlotsFurther.
Context {T : Type}.
Implicit Types (w : World T) (S : list ISlot) (skillContext slots : SkillContext).

Lemma forEachSlot_traces S skillContext slots w :
  ∃ slots',
    SkillDialog.forEachSlot S skillContext slots w
    = Some (inr slots',
            set_sent (w_sent w ++ List.map slotTrace (List.filter (present skillContext) S)) w).
Proof.
  induction S as [|slot S IH] in slots, w |- *.
  - exists slots. cbn. by rewrite app_nil_r, set_sent_same.
  - cbn [SkillDialog.forEachSlot List.filter]. unfold SkillDialog.getObj, present at 1.
    destruct (skillContext !! slot_name slot) as [value|] eqn:Hget.
    + destruct (IH (SkillDialog.setObj (slot_name slot) value slots)
                   (set_sent (w_sent w ++ [slotTrace slot]) w)) as (slots' & Hrun).
      exists slots'. unfold mbind, M_bind, sendActivity, modify.
      fold (slotTrace slot). rewrite Hrun. cbn [w_sent set_sent List.map].
      by rewrite <- app_assoc.
    + apply IH.
Qed.

(** X14.  [matchSkillContextToSlots] changes nothing of the world but the
    log of activities sent to the host: it adds one trace for every slot of
    the list whose name the SkillContext has, in the order of the list (a
    slot listed twice is traced twice), and none for the others. *)
Theorem matchSkillContextToSlots_traces S skillContext w :
  ∃ slots,
    SkillDialog.matchSkillContextToSlots S skillContext w
    = Some (inr slots,
            set_sent (w_sent w ++ List.map slotTrace (List.filter (present skillContext) S)) w).
Proof.
  unfold SkillDialog.matchSkillContextToSlots. destruct S as [|slot S].
  - exists ∅. cbn. by rewrite app_nil_r, set_sent_same.
  - cbn [List.length Nat.ltb Nat.leb]. apply forEachSlot_traces.
Qed.

(** X15.  The slot set does not depend on the order of the slots nor on
    how often a name is listed, nor on the world: two lists with the same
    names give the same slot set. *)
Theorem matchSkillContextToSlots_names_only S S' skillContext w w' :
  (∀ name, name ∈ slot_name <$> S ↔ name ∈ slot_name <$> S') →
  outcome (SkillDialog.matchSkillContextToSlots S skillContext w)
  = outcome (SkillDialog.matchSkillContextToSlots S' skillContext w').
Proof.
  intros Hnames.
  assert (Hmatch : ∀ S0 (w0 : World T), ∃ slots w1,
            SkillDialog.matchSkillContextToSlots S0 skillContext w0 = Some (inr slots, w1) ∧
            ∀ name, slots !! name =
              if bool_decide (name ∈ slot_name <$> S0) then skillContext !! name else None).
  { intros S0 w0. unfold SkillDialog.matchSkillContextToSlots. destruct S0 as [|slot S0].
    - exists ∅, w0. split; [done|]. intros name.
      rewrite bool_decide_eq_false_2; [apply lookup_empty | apply not_elem_of_nil].
    - cbn [List.length Nat.ltb Nat.leb].
      destruct (forEachSlot_spec (slot :: S0) skillContext ∅ w0)
        as (slots & traces & Hrun & Hlook).
      exists slots, (set_sent (w_sent w0 ++ traces) w0). split; [done|].
      intros name. rewrite Hlook, lookup_empty.
      case_bool_decide; [by destruct (skillContext !! name) | done]. }
  destruct (Hmatch S w) as (slots & w1 & -> & Hslots).
  destruct (Hmatch S' w') as (slots' & w1' & -> & Hslots').
  cbn. do 2 f_equal. apply map_eq. intros name.
  rewrite Hslots, Hslots'. apply (f_equal (fun b : bool => if b then _ else _)).
  apply bool_decide_ext, Hnames.
Qed.

End SlotsFurther.

Section DistinctSlotsFurther.

Lemma dedupByName_NoDup l : List.NoDup (List.map slot_name (dedupByName l)).
Proof.
  induction l as [|s l IH]; cbn; [constructor|].
  apply List.NoDup_cons.
  - intros Hin. apply List.in_map_iff in Hin as (x & Hname & Hin).
    apply List.filter_In in Hin as [_ Hdiff].
    rewrite Hname, String.eqb_refl in Hdiff. discriminate.
  - by apply NoDup_map_filter.
Qed.

(** The reduction, without any assumption on the actions: it keeps the
    accumulator in front and adds only slots of the actions. *)
Lemma reduce_names (actions : list IAction) (acc : list ISlot) :
  let result :=
    fold_left
      (fun (acc : list ISlot) (curr : IAction) =>
         acc ++ List.filter
                  (fun slot =>
                     match List.find (fun item => String.eqb (slot_name item) (slot_name slot))
                             acc with
                     | Some _ => false
                     | None => true
                     end)
                  (action_slots curr))
      actions acc in
  (∀ n, In n (List.map slot_name result)
        ↔ In n (List.map slot_name acc) ∨ In n (List.map slot_name (allSlots actions))) ∧
  incl result (acc ++ allSlots actions).
Proof.
  induction actions as [|a actions IH] in acc |- *; cbn zeta.
  - cbn. split; [intros n; tauto | rewrite app_nil_r; apply incl_refl].
  - cbn [fold_left]. destruct (IH (acc ++ List.filter
        (fun slot =>
           match List.find (fun item => String.eqb (slot_name item) (slot_name slot)) acc with
           | Some _ => false
           | None => true
           end) (action_slots a))) as [Hnames Hincl].
    unfold allSlots. cbn [List.map List.concat]. fold (allSlots actions). split.
    + intros n. rewrite Hnames, !List.map_app, !List.in_app_iff.
      split.
      * intros [[Hacc|Hnew]|Hrest]; [tauto| |tauto].
        right. left. apply List.in_map_iff in Hnew as (x & Hname & Hin).
        apply List.filter_In in Hin as [Hin _]. apply List.in_map_iff. eauto.
      * intros [Hacc|[Ha|Hrest]]; [tauto| |tauto].
        apply List.in_map_iff in Ha as (x & Hname & Hin).
        destruct (List.find (fun item => String.eqb (slot_name item) (slot_name x)) acc)
          as [item|] eqn:Hfind.
        -- left. left. apply List.find_some in Hfind as [Hitem Heq].
           apply String.eqb_eq in Heq. apply List.in_map_iff. exists item.
           split; [congruence | done].
        -- left. right. apply List.in_map_iff. exists x. split; [done|].
           apply List.filter_In. split; [done|]. by rewrite Hfind.
    + intros x Hx. apply Hincl in Hx.
      rewrite !List.in_app_iff in *. destruct Hx as [[Hacc|Hnew]|Hrest]; [tauto| |tauto].
      apply List.filter_In in Hnew as [Hin _]. tauto.
Qed.

(** X16.  Whatever the actions declare, the distinct list loses no slot
    name and invents no slot: its names are the names of the slots of all
    actions, and each of its slots is a slot of some action. *)
Theorem skillSlots_covers_all_names (actions : list IAction) :
  (∀ n, In n (List.map slot_name (SkillDialog.skillSlots actions))
        ↔ In n (List.map slot_name (allSlots actions))) ∧
  incl (SkillDialog.skillSlots actions) (allSlots actions).
Proof.
  unfold SkillDialog.skillSlots.
  destruct (reduce_names actions []) as [Hnames Hincl]. split.
  - intros n. rewrite Hnames. cbn. tauto.
  - exact Hincl.
Qed.

(** X17.  When slot names are unique within each action, they are unique
    in the distinct list: a name shared by several actions is listed
    once. *)
Theorem skillSlots_names_unique (actions : list IAction) :
  (∀ a, In a actions → List.NoDup (List.map slot_name (action_slots a))) →
  List.NoDup (List.map slot_name (SkillDialog.skillSlots actions)).
Proof.
  intros Hinv. unfold SkillDialog.skillSlots. rewrite (reduce_spec actions [] Hinv).
  cbn [app]. apply dedupByName_NoDup.
Qed.

End DistinctSlotsFurther.

(** ** Token requests *)

Section TokenRequests.
Context {T : Type} `{ISkillTransport T} `{Imports}.
Variable this : SkillDialog.
Implicit Types (w : World T).

Lemma keepsQueue_ret {A} (a : A) : keepsQueue (T := T) (mret a).
Proof. by intros w r w' [= <- <-]. Qed.

Lemma keepsQueue_throw {A} (e : Error) : keepsQueue (T := T) (A := A) (mthrow e).
Proof. by intros w r w' [= <- <-]. Qed.

Lemma keepsQueue_modify (f : World T → World T) :
  (∀ w, w_queuedResponses (f w) = w_queuedResponses w) → keepsQueue (modify f).
Proof. intros Hf w r w' [= <- <-]. apply Hf. Qed.

Lemma keepsQueue_bind {A B} (m : M T A) (k : A → M T B) :
  keepsQueue m → (∀ a, keepsQueue (k a)) → keepsQueue (m ≫= k).
Proof.
  intros Hm Hk w r w'. unfold mbind, M_bind.
  destruct (m w) as [[[e|a] w1]|] eqn:Hrun; [|intros Hrest|done].
  - intros [= <- <-]. by apply (Hm w _ _ Hrun).
  - rewrite (Hk a w1 r w' Hrest). by apply (Hm w _ _ Hrun).
Qed.

Lemma keepsQueue_get {B} (k : World T → M T B) :
  (∀ w, keepsQueue (k w)) → keepsQueue (get ≫= k).
Proof. intros Hk w r w'. unfold mbind, M_bind, get. apply Hk. Qed.

Lemma keepsQueue_sendActivity (a : Activity) : keepsQueue (T := T) (sendActivity a).
Proof. by apply keepsQueue_modify. Qed.

Lemma dc_resumeDialog_unfold fuel value :
  SkillDialog.dc_resumeDialog this (S fuel) value =
  (w ← get;
   match w_stack w with
   | SkillSwitchFlow options stepIndex :: rest =>
       let index := S stepIndex in
       if (index <? 2)%nat then
         modify (set_stack (SkillSwitchFlow options index :: rest));;
         SkillDialog.finishIntentSwitch this fuel TheSteps options value
       else SkillDialog.dc_endDialog this fuel value
   | SkillSwitchPrompt p :: _ =>
       sendActivity p;; mret {| status := waiting; result := None |}
   | AuthDialog :: _ => mret {| status := waiting; result := None |}
   | [] => mret {| status := complete; result := value |}
   end).
Proof. reflexivity. Qed.

Lemma dc_endDialog_unfold fuel value :
  SkillDialog.dc_endDialog this (S fuel) value =
  (modify (fun w => set_stack (tl (w_stack w)) w);;
   SkillDialog.dc_resumeDialog this fuel value).
Proof. reflexivity. Qed.

Lemma finishIntentSwitch_steps_unfold fuel options value :
  SkillDialog.finishIntentSwitch this (S fuel) TheSteps options value =
  match options with
  | object confirmOptions =>
      if defined options then
        (mthrow (JsError "TypeError: Cannot read property 'cancelRemoteDialogs' of undefined")
           : M T unit);;
        modify (fun w => set_activity
           (with_input
              (Some (match a_text (userInputActivity confirmOptions) with
                     | Some t => t
                     | None => ""
                     end))
              (a_speak (userInputActivity confirmOptions)) (w_activity w)) w);;
        SkillDialog.dc_endDialog this fuel (Some (VBool true))
      else
        dialogResult ←
          (mthrow (JsError "TypeError: this.forwardToSkill is not a function")
             : M T DialogTurnResult);
        SkillDialog.dc_endDialog this fuel
          (Some (VDialogTurnResult (status dialogResult) (result dialogResult)))
  | _ => SkillDialog.dc_endDialog this fuel None
  end.
Proof. reflexivity. Qed.

Lemma dc_beginDialog_auth_unfold fuel options :
  SkillDialog.dc_beginDialog this (S fuel) None options =
  if authDialog this then
    modify (fun w => set_stack (AuthDialog :: w_stack w) w);;
    w ← get;
    let turnResult := authDialogBegin (w_activity w) in
    match status turnResult with
    | waiting => mret turnResult
    | _ => SkillDialog.dc_endDialog this fuel (result turnResult)
    end
  else mthrow (JsError "DialogContext.beginDialog(): A dialog with an id of '' wasn't found.").
Proof. reflexivity. Qed.

Lemma getTokenRequestCallback_unfold fuel activity :
  SkillDialog.getTokenRequestCallback this (S fuel) activity =
  (sendActivity (traceActivity "<--Received a Token Request from a skill");;
   turnResult ← SkillDialog.dc_beginDialog this fuel None undefined;
   match status turnResult with
   | complete =>
       match result turnResult with
       | Some resultObj =>
           if isProviderTokenResponse
                (Some (VDialogTurnResult (status turnResult) (result turnResult)))
           then
             modify (fun w => set_queuedResponses
               (w_queuedResponses w
                ++ [as_event tokenResponseEventName (Some resultObj) (createReply activity)]) w)
           else modify (set_authDialogCancelled true)
       | None => modify (set_authDialogCancelled true)
       end
   | _ => mret tt
   end).
Proof. reflexivity. Qed.

(** Ending and resuming inner dialogs, and the second step as the
    waterfall runs it, leave the queue alone. *)
Lemma dialogContext_keepsQueue fuel :
  (∀ value, keepsQueue (SkillDialog.dc_resumeDialog this fuel value)) ∧
  (∀ value, keepsQueue (SkillDialog.dc_endDialog this fuel value)) ∧
  (∀ options value,
     keepsQueue (SkillDialog.finishIntentSwitch this fuel TheSteps options value)).
Proof.
  induction fuel as [|fuel (IHresume & IHend & IHfinish)];
    [by repeat split; intros; intros w r w' |].
  split; [|split].
  - intros value. rewrite dc_resumeDialog_unfold. apply keepsQueue_get. intros w.
    destruct (w_stack w) as [|[|options stepIndex|p] rest].
    + apply keepsQueue_ret.
    + apply keepsQueue_ret.
    + cbv zeta. destruct (S stepIndex <? 2)%nat.
      * apply keepsQueue_bind; [by apply keepsQueue_modify | intros _; apply IHfinish].
      * apply IHend.
    + apply keepsQueue_bind; [apply keepsQueue_sendActivity | intros _; apply keepsQueue_ret].
  - intros value. rewrite dc_endDialog_unfold.
    apply keepsQueue_bind; [by apply keepsQueue_modify | intros _; apply IHresume].
  - intros options value. rewrite finishIntentSwitch_steps_unfold.
    destruct options as [| |confirmOptions]; [apply IHend.. |].
    cbn [defined].
    apply keepsQueue_bind; [apply keepsQueue_throw | intros _].
    apply keepsQueue_bind; [by apply keepsQueue_modify | intros _; apply IHend].
Qed.

Lemma dc_beginDialog_auth_keepsQueue fuel options :
  keepsQueue (SkillDialog.dc_beginDialog this fuel None options).
Proof.
  destruct fuel as [|fuel]; [by intros w r w'|]. rewrite dc_beginDialog_auth_unfold.
  destruct (authDialog this); [|apply keepsQueue_throw].
  apply keepsQueue_bind; [by apply keepsQueue_modify | intros _].
  apply keepsQueue_get. intros w. cbv zeta.
  destruct (status (authDialogBegin (w_activity w)));
    (apply keepsQueue_ret || apply dialogContext_keepsQueue).
Qed.

(** X18.  The token-request handler tests the whole turn result of the
    authentication dialog, not the token in it.  When a turn result is no
    provider token response, the handler never queues a token event for
    the skill, whether the authentication dialog waits, completes or is
    missing: it leaves the queue as it found it. *)
Theorem getTokenRequestCallback_never_queues fuel activity w r w' :
  (∀ s v, isProviderTokenResponse (Some (VDialogTurnResult s v)) = false) →
  SkillDialog.getTokenRequestCallback this fuel activity w = Some (r, w') →
  w_queuedResponses w' = w_queuedResponses w.
Proof.
  intros Hguard. revert w r w'. change (keepsQueue
    (SkillDialog.getTokenRequestCallback this fuel activity)).
  destruct fuel as [|fuel]; [by intros w r w'|]. rewrite getTokenRequestCallback_unfold.
  apply keepsQueue_bind; [apply keepsQueue_sendActivity | intros _].
  apply keepsQueue_bind; [apply dc_beginDialog_auth_keepsQueue | intros turnResult].
  destruct (status turnResult); try apply keepsQueue_ret.
  destruct (result turnResult) as [resultObj|]; [rewrite Hguard|];
    by apply keepsQueue_modify.
Qed.

End TokenRequests.

(** ** Continuing, and the confirmation flow *)

Section Continuing.
Context {T : Type} `{ISkillTransport T} `{Imports}.
Variable this : SkillDialog.
Implicit Types (w : World T).

Lemma bind_run {A B} (m : M T A) (k : A → M T B) w :
  (m ≫= k) w = match m w with
               | None => None
               | Some (inl e, w') => Some (inl e, w')
               | Some (inr a, w') => k a w'
               end.
Proof. reflexivity. Qed.

Lemma dc_continueDialog_auth fuel w rest :
  w_stack w = AuthDialog :: rest →
  SkillDialog.dc_continueDialog this fuel w =
  Some (inr (authDialogContinue (w_activity w)),
        match status (authDialogContinue (w_activity w)) with
        | waiting => w
        | _ => set_stack rest w
        end).
Proof.
  intros Hstack. unfold SkillDialog.dc_continueDialog. rewrite bind_run.
  unfold get. rewrite Hstack. by destruct (status _).
Qed.

Lemma sendActivities_run (activities : list Activity) w :
  SkillDialog.sendActivities activities w
  = Some (inr tt, set_sent (w_sent w ++ activities) w).
Proof.
  induction activities as [|a activities IH] in w |- *.
  - cbn. rewrite app_nil_r. by destruct w.
  - cbn [SkillDialog.sendActivities]. rewrite bind_run. unfold sendActivity, modify.
    rewrite IH. cbn. by rewrite <- app_assoc.
Qed.

Lemma dc_continueDialog_prompt fuel w p rest :
  w_stack w = SkillSwitchPrompt p :: rest →
  SkillDialog.dc_continueDialog this fuel w =
  match recognizeConfirm (w_activity w) with
  | Some answer => SkillDialog.dc_endDialog this fuel (Some (VBool answer)) w
  | None => Some (inr {| status := waiting; result := None |},
                  set_sent (w_sent w ++ confirmRetry (w_activity w) p) w)
  end.
Proof.
  intros Hstack. unfold SkillDialog.dc_continueDialog. rewrite bind_run.
  unfold get. rewrite Hstack. destruct (recognizeConfirm _); [done|].
  rewrite bind_run, sendActivities_run. reflexivity.
Qed.


(** X20.  When the authentication dialog completes its turn with a
    provider token response, [onContinueDialog] turns the inbound activity
    into a token-response event that carries the response, forwards that
    event to the skill and disconnects. *)
Theorem onContinueDialog_forwards_token fuel w :
  authDialog this = true →
  w_stack w = [AuthDialog] →
  status (authDialogContinue (w_activity w)) = complete →
  isProviderTokenResponse (result (authDialogContinue (w_activity w))) = true →
  SkillDialog.onContinueDialog this (S (S fuel)) w =
  (dialogResult ← SkillDialog.forwardToSkill this (S (S fuel))
                    (as_event tokenResponseEventName
                       (result (authDialogContinue (w_activity w))) (w_activity w));
   SkillDialog.skillTransport_disconnect;;
   mret dialogResult)
    (set_activity (as_event tokenResponseEventName
                     (result (authDialogContinue (w_activity w))) (w_activity w))
       (set_stack [] w)).
Proof.
  intros Hauth Hstack Hdone Htoken. unfold SkillDialog.onContinueDialog.
  rewrite bind_run. unfold get at 1. rewrite bind_run, Hauth, Hstack, bind_run.
  rewrite (dc_continueDialog_auth _ _ [] Hstack), Hdone, Htoken. reflexivity.
Qed.

(** X21.  While the confirm prompt is the active inner dialog and its turn
    does not complete (the inbound activity is no answer it recognizes),
    [onContinueDialog] returns the prompt's result without contacting the
    skill: nothing is forwarded, and the only change to the world is what
    the prompt itself sent to the host surface. *)
Theorem onContinueDialog_asks_again fuel w p rest :
  w_stack w = SkillSwitchPrompt p :: rest →
  recognizeConfirm (w_activity w) = None →
  SkillDialog.onContinueDialog this fuel w
  = Some (inr {| status := waiting; result := None |},
          set_sent (w_sent w ++ confirmRetry (w_activity w) p) w).
Proof.
  intros Hstack Hanswer. unfold SkillDialog.onContinueDialog.
  rewrite bind_run. unfold get at 1. rewrite bind_run, Hstack.
  assert (Hfirst : (if authDialog this then (mret None : M T (option DialogTurnResult))
                    else mret None) w = Some (inr None, w)) by by destruct (authDialog this).
  rewrite Hfirst, bind_run. unfold get at 1. rewrite Hstack, bind_run.
  rewrite (dc_continueDialog_prompt _ _ _ _ Hstack), Hanswer. reflexivity.
Qed.

(** X23.  On an activity that carries a semantic action, a requested
    action id that is not empty and that no action of the manifest has
    stops [onBeginDialog] with the error that names the action and the
    skill, before any trace or activity is sent: the world is as it was. *)
Theorem onBeginDialog_throws_before_sending fuel actionName semanticAction w :
  a_semanticAction (w_activity w) = Some semanticAction →
  actionName ≠ "" →
  List.find (fun item => String.eqb (action_id item) actionName)
    (m_actions (skillManifest this)) = None →
  SkillDialog.onBeginDialog this fuel (Some {| action := actionName |}) w
  = Some (inl (JsError ("Passed Action (" +:+ actionName
                        +:+ ") could not be found within the "
                        +:+ m_id (skillManifest this)
                        +:+ " skill manifest action definition.")), w).
Proof. apply onBeginDialog_action_not_found. Qed.

Lemma dc_beginDialog_flow_unfold fuel options :
  SkillDialog.dc_beginDialog this (S fuel) (Some confirmSkillSwitchFlow) options =
  (modify (fun w => set_stack (SkillSwitchFlow options 0 :: w_stack w) w);;
   SkillDialog.confirmIntentSwitch this fuel options).
Proof. reflexivity. Qed.

Lemma confirmIntentSwitch_unfold fuel options :
  SkillDialog.confirmIntentSwitch this (S fuel) options =
  match options with
  | object confirmOptions =>
      SkillDialog.prompt
        (messageActivity ("Are you sure to switch to " +:+ targetIntent confirmOptions +:+ "?")
                         ("Are you sure to switch to " +:+ targetIntent confirmOptions +:+ "?"))
  | _ => SkillDialog.dc_resumeDialog this fuel None
  end.
Proof. by destruct options. Qed.

(** X22.  Begun with its options, the confirmation flow asks whether to
    switch to the target intent, in text and speech, and waits with the
    prompt on top of the waterfall; it does not contact the skill and
    leaves activity, queue and transport as they were. *)
Theorem confirmSkillSwitchFlow_asks fuel w confirmOptions :
  ∃ w',
    SkillDialog.dc_beginDialog this (S (S fuel)) (Some confirmSkillSwitchFlow)
      (object confirmOptions) w
    = Some (inr {| status := waiting; result := None |}, w') ∧
    w_stack w' =
      SkillSwitchPrompt
        (messageActivity
           ("Are you sure to switch to " +:+ targetIntent confirmOptions +:+ "?")
           ("Are you sure to switch to " +:+ targetIntent confirmOptions +:+ "?"))
      :: SkillSwitchFlow (object confirmOptions) 0 :: w_stack w ∧
    w_sent w' =
      w_sent w ++
      [messageActivity
         ("Are you sure to switch to " +:+ targetIntent confirmOptions +:+ "?")
         ("Are you sure to switch to " +:+ targetIntent confirmOptions +:+ "?")] ∧
    w_skillTransport w' = w_skillTransport w ∧
    w_activity w' = w_activity w ∧
    w_queuedResponses w' = w_queuedResponses w.
Proof.
  eexists. split.
  - rewrite dc_beginDialog_flow_unfold, confirmIntentSwitch_unfold. reflexivity.
  - done.
Qed.

End Continuing.

(** ** The errors of the dialog *)

Lemma exists_last_or_nil {A} (l : list A) : l = [] ∨ ∃ q x, l = q ++ [x].
Proof.
  destruct l as [|a l]; [by left|]. right.
  destruct (exists_last (l := a :: l)) as (q & x & Heq); [done|]. by exists q, x.
Qed.

Section Errors.
Context {T : Type} `{ISkillTransport T} `{Imports}.
Variable this : SkillDialog.
Implicit Types (w : World T).

Lemma actionNotFound_isActionNotFound actionName :
  isActionNotFound (SkillDialog.actionNotFound this actionName) = true.
Proof. unfold SkillDialog.actionNotFound, isActionNotFound. apply prefix_app. Qed.

Lemma throwsNo_ret {A} (a : A) : throwsNoActionNotFound (T := T) (mret a).
Proof. by intros w e w'. Qed.

Lemma throwsNo_throw {A} (e : Error) :
  isActionNotFound e = false → throwsNoActionNotFound (T := T) (A := A) (mthrow e).
Proof. by intros He w e' w' [= <- <-]. Qed.

Lemma throwsNo_modify (f : World T → World T) : throwsNoActionNotFound (modify f).
Proof. by intros w e w'. Qed.

Lemma throwsNo_bind {A B} (m : M T A) (k : A → M T B) :
  throwsNoActionNotFound m → (∀ a, throwsNoActionNotFound (k a)) →
  throwsNoActionNotFound (m ≫= k).
Proof.
  intros Hm Hk w e w'. unfold mbind, M_bind.
  destruct (m w) as [[[e0|a] w0]|] eqn:Hrun; [|apply Hk|done].
  intros [= <- <-]. exact (Hm w e0 w0 Hrun).
Qed.

Lemma throwsNo_get {B} (k : World T → M T B) :
  (∀ w, throwsNoActionNotFound (k w)) → throwsNoActionNotFound (get ≫= k).
Proof. intros Hk w e w'. unfold mbind, M_bind, get. apply Hk. Qed.

Lemma throwsNo_tryCatch {A} (m : M T A) (h : Error → M T A) :
  throwsNoActionNotFound m →
  (∀ e, isActionNotFound e = false → throwsNoActionNotFound (h e)) →
  throwsNoActionNotFound (tryCatch m h).
Proof.
  intros Hm Hh w e w'. unfold tryCatch.
  destruct (m w) as [[[e0|a] w0]|] eqn:Hrun; [|done..].
  apply Hh. exact (Hm w e0 w0 Hrun).
Qed.

(** What a handler of the transport throws stays with it. *)
Lemma throwsNo_detached (m : M T unit) : throwsNoActionNotFound (detached m).
Proof.
  intros w e w'. unfold detached, tryCatch.
  by destruct (m w) as [[[e0|a] w0]|].
Qed.

Lemma throwsNo_deliver (handler : Activity → M T unit) requests :
  throwsNoActionNotFound (SkillDialog.deliver handler requests).
Proof.
  induction requests as [|[a|a|a] requests IH]; cbn [SkillDialog.deliver];
    [apply throwsNo_ret | | exact IH | exact IH].
  apply throwsNo_bind; [apply throwsNo_detached | intros _; exact IH].
Qed.

Lemma throwsNo_prompt p : throwsNoActionNotFound (T := T) (SkillDialog.prompt p).
Proof.
  unfold SkillDialog.prompt.
  apply throwsNo_bind; [apply throwsNo_modify | intros _].
  apply throwsNo_bind; [apply throwsNo_modify | intros _; apply throwsNo_ret].
Qed.

Lemma skillTransport_forwardToSkill_unfold fuel activity w :
  SkillDialog.skillTransport_forwardToSkill this (S fuel) activity w
  = (SkillDialog.deliver (SkillDialog.getTokenRequestCallback this fuel)
       (fw_delivered (transport_forwardToSkill (skillManifest this) (w_activity w) activity
                        true false (w_skillTransport w)));;
     settle (fw_outcome (transport_forwardToSkill (skillManifest this) (w_activity w)
                           activity true false (w_skillTransport w))))
      (set_skillTransport
         (fw_next (transport_forwardToSkill (skillManifest this) (w_activity w) activity
                     true false (w_skillTransport w))) w).
Proof. reflexivity. Qed.

Lemma whileQueuedResponses_empty fuel dialogResult w :
  w_queuedResponses w = [] →
  SkillDialog.whileQueuedResponses this (S fuel) dialogResult w = Some (inr dialogResult, w).
Proof. intros Hqueue. cbn. unfold mbind, M_bind, get. by rewrite Hqueue. Qed.

Lemma dc_beginDialog_prompt_unfold fuel options :
  SkillDialog.dc_beginDialog this (S fuel) (Some confirmSkillSwitchPrompt) options
  = SkillDialog.prompt noActivity.
Proof. reflexivity. Qed.

Lemma finishIntentSwitch_dialog_unfold fuel options value :
  SkillDialog.finishIntentSwitch this (S fuel) TheDialog options value =
  match options with
  | object confirmOptions =>
      if defined options then
        SkillDialog.skillTransport_cancelRemoteDialogs this;;
        modify (fun w => set_activity
           (with_input
              (Some (match a_text (userInputActivity confirmOptions) with
                     | Some t => t
                     | None => ""
                     end))
              (a_speak (userInputActivity confirmOptions)) (w_activity w)) w);;
        SkillDialog.dc_endDialog this fuel (Some (VBool true))
      else
        dialogResult ← SkillDialog.forwardToSkill this fuel (userInputActivity confirmOptions);
        SkillDialog.dc_endDialog this fuel
          (Some (VDialogTurnResult (status dialogResult) (result dialogResult)))
  | _ => SkillDialog.dc_endDialog this fuel None
  end.
Proof. reflexivity. Qed.

(** The transport is any transport whose errors are its own. *)
Hypothesis transport_forwardToSkill_throws : ∀ m a1 a2 tok fb (t : T) e,
  fw_outcome (transport_forwardToSkill m a1 a2 tok fb t) = inl e →
  isActionNotFound e = false.
Hypothesis transport_cancelRemoteDialogs_throws : ∀ m a (t : T) e,
  snd (transport_cancelRemoteDialogs m a t) = inl e → isActionNotFound e = false.

Lemma throwsNo_cancelRemoteDialogs :
  throwsNoActionNotFound (SkillDialog.skillTransport_cancelRemoteDialogs this).
Proof.
  intros w e w'. unfold SkillDialog.skillTransport_cancelRemoteDialogs.
  destruct (transport_cancelRemoteDialogs _ _ _) as [t [e0|[]]] eqn:Hcancel; cbn; [|done].
  intros [= <- <-].
  apply (transport_cancelRemoteDialogs_throws (skillManifest this) (w_activity w)
           (w_skillTransport w)).
  by rewrite Hcancel.
Qed.

(** None of the methods that call each other throws the error of an
    action that was not found: what they throw comes from the transport,
    from an authentication dialog that is missing, or from a step of the
    waterfall that has lost the dialog. *)
Lemma dialog_throwsNoActionNotFound fuel :
  (∀ activity, throwsNoActionNotFound (SkillDialog.forwardToSkill this fuel activity)) ∧
  (∀ activity,
     throwsNoActionNotFound (SkillDialog.skillTransport_forwardToSkill this fuel activity)) ∧
  (∀ dialogResult,
     throwsNoActionNotFound (SkillDialog.whileQueuedResponses this fuel dialogResult)) ∧
  (∀ activity,
     throwsNoActionNotFound (SkillDialog.getTokenRequestCallback this fuel activity)) ∧
  (∀ dialogId options,
     throwsNoActionNotFound (SkillDialog.dc_beginDialog this fuel dialogId options)) ∧
  (∀ options, throwsNoActionNotFound (SkillDialog.confirmIntentSwitch this fuel options)) ∧
  (∀ receiver options value,
     throwsNoActionNotFound
       (SkillDialog.finishIntentSwitch this fuel receiver options value)) ∧
  (∀ value, throwsNoActionNotFound (SkillDialog.dc_resumeDialog this fuel value)) ∧
  (∀ value, throwsNoActionNotFound (SkillDialog.dc_endDialog this fuel value)).
Proof.
  induction fuel as [|fuel (IHforward & IHcall & IHwhile & IHtoken & IHbegin & IHconfirm
                            & IHfinish & IHresume & IHend)];
    [by repeat split; intros; intros w e w' |].
  repeat split.
  - intros activity. rewrite forwardToSkill_unfold. apply throwsNo_tryCatch.
    + apply throwsNo_bind; [apply IHcall | intros [handoffActivity|]; [|apply IHwhile]].
      apply throwsNo_bind; [apply throwsNo_modify | intros _; apply IHend].
    + intros e He. apply throwsNo_bind; [apply IHend | intros _; by apply throwsNo_throw].
  - intros activity w e w'. rewrite skillTransport_forwardToSkill_unfold.
    apply throwsNo_bind; [apply throwsNo_deliver | intros _].
    intros w0 e0 w0'.
    destruct (fw_outcome _) as [e1|a] eqn:Hcall; cbn; [|done].
    intros [= <- <-]. exact (transport_forwardToSkill_throws _ _ _ _ _ _ _ Hcall).
  - intros dialogResult w e w'.
    destruct (exists_last_or_nil (w_queuedResponses w)) as [Hqueue|(queue & lastEvent & Hqueue)].
    + by rewrite (whileQueuedResponses_empty _ _ _ Hqueue).
    + rewrite (whileQueuedResponses_resends this _ _ _ _ _ Hqueue).
      apply throwsNo_bind; [apply IHforward | intros r; apply IHwhile].
  - intros activity. rewrite getTokenRequestCallback_unfold.
    apply throwsNo_bind; [apply throwsNo_modify | intros _].
    apply throwsNo_bind; [apply IHbegin | intros turnResult].
    destruct (status turnResult); try apply throwsNo_ret.
    destruct (result turnResult); [destruct (isProviderTokenResponse _)|];
      apply throwsNo_modify.
  - intros [[|]|] options.
    + rewrite dc_beginDialog_prompt_unfold. apply throwsNo_prompt.
    + rewrite dc_beginDialog_flow_unfold.
      apply throwsNo_bind; [apply throwsNo_modify | intros _; apply IHconfirm].
    + rewrite dc_beginDialog_auth_unfold.
      destruct (authDialog this); [|by apply throwsNo_throw].
      apply throwsNo_bind; [apply throwsNo_modify | intros _].
      apply throwsNo_get. intros w. cbv zeta.
      destruct (status (authDialogBegin (w_activity w)));
        (apply throwsNo_ret || apply IHend).
  - intros options. rewrite confirmIntentSwitch_unfold.
    destruct options; (apply IHresume || apply throwsNo_prompt).
  - intros [|] options value.
    + rewrite finishIntentSwitch_dialog_unfold.
      destruct options as [| |confirmOptions]; [apply IHend.. |]. cbn [defined].
      apply throwsNo_bind; [apply throwsNo_cancelRemoteDialogs | intros _].
      apply throwsNo_bind; [apply throwsNo_modify | intros _; apply IHend].
    + rewrite finishIntentSwitch_steps_unfold.
      destruct options as [| |confirmOptions]; [apply IHend.. |]. cbn [defined].
      apply throwsNo_bind; [by apply throwsNo_throw | intros _].
      apply throwsNo_bind; [apply throwsNo_modify | intros _; apply IHend].
  - intros value. rewrite dc_resumeDialog_unfold. apply throwsNo_get. intros w.
    destruct (w_stack w) as [|[|options stepIndex|p] rest].
    + apply throwsNo_ret.
    + apply throwsNo_ret.
    + cbv zeta. destruct (S stepIndex <? 2)%nat; [|apply IHend].
      apply throwsNo_bind; [apply throwsNo_modify | intros _; apply IHfinish].
    + apply throwsNo_bind; [apply throwsNo_modify | intros _; apply throwsNo_ret].
  - intros value. rewrite dc_endDialog_unfold.
    apply throwsNo_bind; [apply throwsNo_modify | intros _; apply IHresume].
Qed.

(** Begun on an activity without semantic action, the dialog throws no
    error of an action that was not found. *)
Lemma onBeginDialog_throwsNoActionNotFound fuel options w e w' :
  a_semanticAction (w_activity w) = None →
  SkillDialog.onBeginDialog this fuel options w = Some (inl e, w') →
  isActionNotFound e = false.
Proof.
  intros Hnone. rewrite (onBeginDialog_without_semanticAction this _ _ _ Hnone).
  generalize (w_activity w). intros activity. clear Hnone. revert w e w'.
  apply throwsNo_bind; [apply throwsNo_modify | intros _].
  apply throwsNo_bind; [apply dialog_throwsNoActionNotFound | intros dialogResult].
  apply throwsNo_bind; [apply throwsNo_modify | intros _; apply throwsNo_ret].
Qed.

(** Begun on an activity without semantic action, the dialog sends the
    hand-off trace and calls the transport on the activity as it is. *)
Lemma onBeginDialog_calls_transport fuel options w :
  a_semanticAction (w_activity w) = None →
  SkillDialog.onBeginDialog this (S (S fuel)) options w
  = (dialogResult ←
       tryCatch
         (handoffActivity ←
            (SkillDialog.deliver (SkillDialog.getTokenRequestCallback this fuel)
               (fw_delivered (transport_forwardToSkill (skillManifest this) (w_activity w)
                                (w_activity w) true false (w_skillTransport w)));;
             settle (fw_outcome (transport_forwardToSkill (skillManifest this) (w_activity w)
                                   (w_activity w) true false (w_skillTransport w))));
          match handoffActivity with
          | Some handoffActivity =>
              sendActivity (traceActivity
                ("<--Ending the skill conversation with the " +:+ m_name (skillManifest this)
                 +:+ " Skill and handing off to Parent Bot."));;
              SkillDialog.dc_endDialog this (S fuel)
                (match a_semanticAction handoffActivity with
                 | Some semanticAction => Some (VEntities (sa_entities semanticAction))
                 | None => None
                 end)
          | None =>
              SkillDialog.whileQueuedResponses this (S fuel)
                {| status := waiting; result := None |}
          end)
         (fun error => SkillDialog.dc_endDialog this (S fuel) None;; mthrow error);
     SkillDialog.skillTransport_disconnect;;
     mret dialogResult)
      (set_skillTransport
         (fw_next (transport_forwardToSkill (skillManifest this) (w_activity w)
                     (w_activity w) true false (w_skillTransport w)))
         (set_sent (w_sent w
                    ++ [traceActivity ("-->Handing off to the " +:+ m_name (skillManifest this)
                                       +:+ " skill.")]) w)).
Proof.
  intros Hnone. rewrite (onBeginDialog_without_semanticAction this _ _ _ Hnone).
  rewrite forwardToSkill_unfold. reflexivity.
Qed.

End Errors.

(** ** Beginning on an activity without semantic action, over the socket *)

Lemma ensureWebSocketUrl_throws url e :
  ensureWebSocketUrl url = inl e → e = JsError "url is empty!".
Proof.
  unfold ensureWebSocketUrl. destruct (Js.falsy url); [by intros [= <-]|].
  by repeat destruct (Js.startsWith _ _).
Qed.

(** The errors of the socket transport are its own. *)
Lemma socket_forwardToSkill_throws skillManifest activity tok fb this e :
  fw_outcome (forwardToSkill skillManifest activity tok fb this) = inl e →
  isActionNotFound e = false.
Proof.
  socket_cases skillManifest activity this;
    try (by intros [= <-]);
    try (intros [= <-]; by rewrite (ensureWebSocketUrl_throws _ _ Hurl));
    match goal with
    | |- context [match ?h with Some _ => _ | None => _ end] =>
        destruct h; cbn; by intros [= <-]
    end.
Qed.

Lemma socket_cancelRemoteDialogs_throws `{Imports} skillManifest turnActivity this e :
  snd (cancelRemoteDialogs skillManifest turnActivity this) = inl e →
  isActionNotFound e = false.
Proof.
  unfold cancelRemoteDialogs. cbn [snd].
  destruct (fw_outcome _) as [e0|a] eqn:Hcall; [|done].
  intros [= <-]. exact (socket_forwardToSkill_throws _ _ _ _ _ _ Hcall).
Qed.

Section BeginningOverTheSocket.
Context `{Imports}.
Variable this : SkillDialog.
Implicit Types (w : World SkillWebSocketTransport.t).

(** C10.  Begun on an activity that has no semantic action, the dialog
    looks up no action and matches no slot, whatever the requested action
    id: the first thing it sends is the hand-off trace, and then it calls
    the transport's [forwardToSkill] on the activity of the turn as it is;
    what follows is the handling of the call's callbacks and outcome, and
    the disconnection.  The body that call posts, when it posts, is the
    activity addressed to the skill, without a semantic action.  The run is
    the run without options.  And whatever it throws, it is never the
    error of an action that was not found, for any action name. *)
Theorem onBeginDialog_without_semanticAction_forwards fuel options w :
  a_semanticAction (w_activity w) = None →
  let call := forwardToSkill (skillManifest this) (w_activity w) true false
                (w_skillTransport w) in
  SkillDialog.onBeginDialog this (S (S fuel)) options w
  = (dialogResult ←
       tryCatch
         (handoffActivity ←
            (SkillDialog.deliver (SkillDialog.getTokenRequestCallback this fuel)
               (fw_delivered call);;
             settle (fw_outcome call));
          match handoffActivity with
          | Some handoffActivity =>
              sendActivity (traceActivity
                ("<--Ending the skill conversation with the " +:+ m_name (skillManifest this)
                 +:+ " Skill and handing off to Parent Bot."));;
              SkillDialog.dc_endDialog this (S fuel)
                (match a_semanticAction handoffActivity with
                 | Some semanticAction => Some (VEntities (sa_entities semanticAction))
                 | None => None
                 end)
          | None =>
              SkillDialog.whileQueuedResponses this (S fuel)
                {| status := waiting; result := None |}
          end)
         (fun error => SkillDialog.dc_endDialog this (S fuel) None;; mthrow error);
     SkillDialog.skillTransport_disconnect;;
     mret dialogResult)
      (set_skillTransport (fw_next call)
         (set_sent (w_sent w
                    ++ [traceActivity ("-->Handing off to the " +:+ m_name (skillManifest this)
                                       +:+ " skill.")]) w)) ∧
  (posted (fw_next call) = posted (w_skillTransport w) ∨
   posted (fw_next call)
     = posted (w_skillTransport w)
       ++ [with_semanticAction None (toSkill (skillManifest this) (w_activity w))]) ∧
  SkillDialog.onBeginDialog this (S (S fuel)) options w
    = SkillDialog.onBeginDialog this (S (S fuel)) None w ∧
  ∀ e w', SkillDialog.onBeginDialog this (S (S fuel)) options w = Some (inl e, w') →
          ∀ actionName, e ≠ SkillDialog.actionNotFound this actionName.
Proof.
  intros Hnone call. split; [|split; [|split]].
  - exact (onBeginDialog_calls_transport this fuel options w Hnone).
  - assert (Hbody : with_semanticAction None (toSkill (skillManifest this) (w_activity w))
                    = toSkill (skillManifest this) (w_activity w))
      by (unfold with_semanticAction, toSkill; cbn; by rewrite Hnone).
    rewrite Hbody. subst call.
    socket_cases (skillManifest this) (w_activity w) (w_skillTransport w);
      try (by left); try (by right);
      match goal with
      | |- context [match ?h with Some _ => _ | None => _ end] =>
          destruct h; cbn; ((by left) || (by right))
      end.
  - by rewrite !(onBeginDialog_without_semanticAction this _ _ _ Hnone).
  - intros e w' Hthrows actionName ->.
    pose proof (onBeginDialog_throwsNoActionNotFound (T := SkillWebSocketTransport.t) this
                  (fun m _ a tok fb t e => socket_forwardToSkill_throws m a tok fb t e)
                  (fun m a t e => socket_cancelRemoteDialogs_throws m a t e)
                  _ _ _ _ _ Hnone Hthrows) as Hno.
    by rewrite actionNotFound_isActionNotFound in Hno.
Qed.

End BeginningOverTheSocket.

(** ** Instances of the properties that have premises *)

Section SocketInstances.
#[local] Existing Instance Sample.imports.

Lemma socket_forwardToSkill_stale_handoff_witness :
  fw_outcome (forwardToSkill Sample.calendar (Sample.userSays "and next week" None)
                true false Sample.handedOff)
  = inr (Some Sample.handoff).
Proof.
  eapply socket_forwardToSkill_stale_handoff; try reflexivity.
  intros a [].
Defined.

Lemma socket_forwardToSkill_no_recipient_witness :
  posted (fw_next (forwardToSkill Sample.calendar Sample.unaddressed true false
                     Sample.handedOff)) = [] ∧
  fw_delivered (forwardToSkill Sample.calendar Sample.unaddressed true false
                  Sample.handedOff) = [] ∧
  handoffActivity (fw_next (forwardToSkill Sample.calendar Sample.unaddressed true false
                              Sample.handedOff)) = Some Sample.handoff.
Proof.
  apply (socket_forwardToSkill_no_recipient Sample.calendar Sample.unaddressed true false
           Sample.handedOff).
  reflexivity.
Defined.


Lemma socket_forwardToSkill_reuses_connection_witness :
  ∃ c', streamingTransportClient
          (fw_next (forwardToSkill Sample.nowhere (Sample.userSays "hello" None) false true
                      Sample.handedOff)) = Some c' ∧
        c_url c' = "wss://calendar.example/api/skill/messages" ∧
        c_tokenRequestHandler c' = true ∧
        c_fallbackHandler c' = false.
Proof.
  apply (socket_forwardToSkill_reuses_connection Sample.nowhere
           (Sample.userSays "hello" None) false true Sample.handedOff
           {| c_url := "wss://calendar.example/api/skill/messages"; c_connected := true;
              c_tokenRequestHandler := true; c_fallbackHandler := false |}).
  reflexivity.
Defined.

Lemma socket_forwardToSkill_empty_endpoint_witness :
  fw_outcome (forwardToSkill Sample.nowhere (Sample.userSays "hello" None) true false
                (Sample.socket [Sample.handsOff]))
    = inl (JsError "url is empty!") ∧
  streamingTransportClient
    (fw_next (forwardToSkill Sample.nowhere (Sample.userSays "hello" None) true false
                (Sample.socket [Sample.handsOff]))) = None ∧
  posted (fw_next (forwardToSkill Sample.nowhere (Sample.userSays "hello" None) true false
                     (Sample.socket [Sample.handsOff]))) = [].
Proof.
  apply (socket_forwardToSkill_empty_endpoint Sample.nowhere (Sample.userSays "hello" None)
           true false (Sample.socket [Sample.handsOff])); reflexivity.
Defined.

Lemma ensureWebSocketUrl_idempotent_witness :
  Js.startsWith "wss://calendar.example/api/skill/messages" "http://" = false ∧
  Js.startsWith "wss://calendar.example/api/skill/messages" "https://" = false ∧
  ensureWebSocketUrl "wss://calendar.example/api/skill/messages"
    = inr "wss://calendar.example/api/skill/messages".
Proof.
  apply (ensureWebSocketUrl_idempotent (m_endpoint Sample.calendar)). reflexivity.
Defined.

Lemma socket_disconnect_then_forward_witness :
  disconnect (Sample.socket [Sample.handsOff]) = Sample.socket [Sample.handsOff] ∧
  fw_outcome (forwardToSkill Sample.calendar (Sample.userSays "book it" None) true false
                (disconnect Sample.handedOff))
    = inr (Some Sample.handoff).
Proof.
  destruct (socket_disconnect_then_forward Sample.calendar (Sample.userSays "book it" None)
              true false (Sample.socket [Sample.handsOff])) as (Hnone & _).
  destruct (socket_disconnect_then_forward Sample.calendar (Sample.userSays "book it" None)
              true false Sample.handedOff) as (_ & _ & Hout & _).
  split; [by apply Hnone | by rewrite Hout].
Defined.

Lemma socket_cancelRemoteDialogs_without_handoff_witness :
  ∃ e, snd (cancelRemoteDialogs Sample.calendar (Sample.userSays "never mind" None)
              (Sample.socket [])) = inl e.
Proof.
  apply (socket_cancelRemoteDialogs_without_handoff Sample.calendar
           (Sample.userSays "never mind" None) (Sample.socket [])).
  - reflexivity.
  - intros a [].
Defined.

End SocketInstances.

Section DialogInstances.
#[local] Existing Instance Sample.imports.
#[local] Existing Instance ScriptedTransport.transport.

Lemma forwardToSkill_transport_throws_witness :
  SkillDialog.forwardToSkill Sample.calendarDialog 3 (Sample.userSays "book it" None)
    (Sample.world (Sample.userSays "book it" None) [AuthDialog]
       (Sample.scripted [inl (Rejected "socket closed")]))
  = Some (inl (Rejected "socket closed"),
          Sample.world (Sample.userSays "book it" None) []
            {| ScriptedTransport.replies := [];
               ScriptedTransport.forwarded := [Sample.userSays "book it" None];
               ScriptedTransport.cancelled := 0 |}).
Proof.
  apply (forwardToSkill_transport_throws Sample.calendarDialog 0
           (Sample.userSays "book it" None)
           (Sample.world (Sample.userSays "book it" None) [AuthDialog]
              (Sample.scripted [inl (Rejected "socket closed")]))
           (Rejected "socket closed")
           (Sample.world (Sample.userSays "book it" None) [AuthDialog]
              {| ScriptedTransport.replies := [];
                 ScriptedTransport.forwarded := [Sample.userSays "book it" None];
                 ScriptedTransport.cancelled := 0 |})).
  - vm_compute. reflexivity.
  - cbn. lia.
Defined.

Lemma forwardToSkill_waits_witness :
  SkillDialog.forwardToSkill Sample.calendarDialog 2 (Sample.userSays "book it" None)
    (Sample.world (Sample.userSays "book it" None) [] (Sample.scripted []))
  = Some (inr {| status := waiting; result := None |},
          Sample.world (Sample.userSays "book it" None) []
            {| ScriptedTransport.replies := [];
               ScriptedTransport.forwarded := [Sample.userSays "book it" None];
               ScriptedTransport.cancelled := 0 |}).
Proof.
  apply (forwardToSkill_waits Sample.calendarDialog 0 (Sample.userSays "book it" None)
           (Sample.world (Sample.userSays "book it" None) [] (Sample.scripted []))).
  - vm_compute. reflexivity.
  - reflexivity.
Defined.

Lemma forwardToSkill_drains_last_in_first_out_witness :
  ScriptedTransport.forwarded <$>
    (w_skillTransport <$>
       after (SkillDialog.forwardToSkill Sample.calendarDialog 6
                (Sample.userSays "book it" None)
                (set_queuedResponses
                   [with_name "first" noActivity; with_name "second" noActivity]
                   (Sample.world (Sample.userSays "book it" None) [] (Sample.scripted [])))))
  = Some [Sample.userSays "book it" None;
          with_name "second" noActivity; with_name "first" noActivity].
Proof.
  rewrite (forwardToSkill_drains_last_in_first_out Sample.calendarDialog
             [with_name "first" noActivity; with_name "second" noActivity] 6
             (Sample.userSays "book it" None)
             (set_queuedResponses
                [with_name "first" noActivity; with_name "second" noActivity]
                (Sample.world (Sample.userSays "book it" None) [] (Sample.scripted []))));
    [reflexivity | cbn; lia | reflexivity | reflexivity].
Defined.

Lemma matchSkillContextToSlots_names_only_witness :
  outcome (SkillDialog.matchSkillContextToSlots
             [ {| slot_name := "date"; slot_type := "string" |};
               {| slot_name := "title"; slot_type := "string" |} ]
             Sample.skillContext
             (Sample.world (Sample.userSays "book it" None) [] (Sample.scripted [])))
  = outcome (SkillDialog.matchSkillContextToSlots
               [ {| slot_name := "title"; slot_type := "text" |};
                 {| slot_name := "date"; slot_type := "datetime" |};
                 {| slot_name := "date"; slot_type := "string" |} ]
               Sample.skillContext
               (Sample.world (Sample.userSays "move it" None) [AuthDialog]
                  (Sample.scripted []))).
Proof.
  apply matchSkillContextToSlots_names_only.
  intros name. cbn. rewrite !elem_of_cons, !elem_of_nil. tauto.
Defined.

Lemma skillSlots_names_unique_witness :
  List.NoDup (List.map slot_name (SkillDialog.skillSlots (m_actions Sample.planner))).
Proof.
  apply skillSlots_names_unique.
  intros a [<-|[<-|[]]]; cbn; repeat constructor; cbn; intuition discriminate.
Defined.

Lemma getTokenRequestCallback_never_queues_witness :
  w_queuedResponses <$>
    after (SkillDialog.getTokenRequestCallback Sample.calendarDialog 5
             (Sample.userSays "token please" None)
             (Sample.world (Sample.userSays "book it" None) [] (Sample.scripted [])))
  = Some [].
Proof.
  destruct (SkillDialog.getTokenRequestCallback Sample.calendarDialog 5
              (Sample.userSays "token please" None)
              (Sample.world (Sample.userSays "book it" None) [] (Sample.scripted [])))
    as [[r w']|] eqn:Hrun; [|by vm_compute in Hrun].
  assert (Hguard : ∀ s v, isProviderTokenResponse (Some (VDialogTurnResult s v)) = false)
    by (intros s v; reflexivity).
  cbn. f_equal.
  rewrite (getTokenRequestCallback_never_queues Sample.calendarDialog 5
             (Sample.userSays "token please" None)
             (Sample.world (Sample.userSays "book it" None) [] (Sample.scripted []))
             r w' Hguard Hrun).
  reflexivity.
Defined.


Lemma onContinueDialog_forwards_token_witness :
  outcome (SkillDialog.onContinueDialog Sample.calendarDialog 2
             (Sample.world (Sample.userSays "123456" None) [AuthDialog]
                (Sample.scripted [])))
  = Some (inr {| status := waiting; result := None |}) ∧
  ScriptedTransport.forwarded <$>
    (w_skillTransport <$>
       after (SkillDialog.onContinueDialog Sample.calendarDialog 2
                (Sample.world (Sample.userSays "123456" None) [AuthDialog]
                   (Sample.scripted []))))
  = Some [as_event "token-response" (Some (VTokenResponse "123456"))
            (Sample.userSays "123456" None)].
Proof.
  rewrite (onContinueDialog_forwards_token Sample.calendarDialog 0
             (Sample.world (Sample.userSays "123456" None) [AuthDialog] (Sample.scripted [])));
    [by vm_compute | reflexivity | reflexivity | reflexivity | reflexivity].
Defined.

Lemma onContinueDialog_asks_again_witness :
  SkillDialog.onContinueDialog Sample.calendarDialog 6
    (Sample.world (Sample.userSays "maybe" None) Sample.confirming (Sample.scripted []))
  = Some (inr {| status := waiting; result := None |},
          set_sent [messageActivity "Are you sure to switch to email?"
                                    "Are you sure to switch to email?"]
            (Sample.world (Sample.userSays "maybe" None) Sample.confirming
               (Sample.scripted []))).
Proof.
  exact (onContinueDialog_asks_again Sample.calendarDialog 6
           (Sample.world (Sample.userSays "maybe" None) Sample.confirming
              (Sample.scripted []))
           (messageActivity "Are you sure to switch to email?"
                            "Are you sure to switch to email?")
           [SkillSwitchFlow (object Sample.switchToEmail) 0] eq_refl eq_refl).
Defined.

Lemma onBeginDialog_throws_before_sending_witness :
  SkillDialog.onBeginDialog Sample.calendarDialog 6 (Some {| action := "deleteEvent" |})
    (Sample.world
       (Sample.userSays "delete my meeting"
          (Some {| sa_id := ""; sa_entities := ∅; sa_state := "" |}))
       [] (Sample.scripted []))
  = Some (inl (JsError "Passed Action (deleteEvent) could not be found within the calendar skill manifest action definition."),
          Sample.world
            (Sample.userSays "delete my meeting"
               (Some {| sa_id := ""; sa_entities := ∅; sa_state := "" |}))
            [] (Sample.scripted [])).
Proof.
  apply (onBeginDialog_throws_before_sending Sample.calendarDialog 6 "deleteEvent"
           {| sa_id := ""; sa_entities := ∅; sa_state := "" |});
    [reflexivity | discriminate | reflexivity].
Defined.

End DialogInstances.

Section SocketDialogInstances.
#[local] Existing Instance Sample.imports.

Lemma onBeginDialog_without_semanticAction_forwards_witness :
  let activity := Sample.userSays "delete my meeting" None in
  let w := Sample.world activity [] (Sample.socket [Sample.handsOff]) in
  let r := SkillDialog.onBeginDialog Sample.calendarDialog 6
             (Some {| action := "deleteEvent" |}) w in
  outcome r = Some (inr {| status := complete;
                           result := Some (VEntities (<["eventId" := "42"]> ∅)) |}) ∧
  (w_sent <$> after r)
  = Some [ traceActivity "-->Handing off to the Calendar skill.";
           traceActivity "<--Ending the skill conversation with the Calendar Skill and handing off to Parent Bot." ] ∧
  (posted <$> (w_skillTransport <$> after r))
  = Some [ with_semanticAction None (toSkill Sample.calendar activity) ] ∧
  ∀ e w', r = Some (inl e, w') →
          ∀ actionName, e ≠ SkillDialog.actionNotFound Sample.calendarDialog actionName.
Proof.
  intros activity w r.
  destruct (onBeginDialog_without_semanticAction_forwards Sample.calendarDialog 4
              (Some {| action := "deleteEvent" |}) w eq_refl) as (Hcall & _ & _ & Hno).
  subst r. repeat split; [rewrite Hcall; vm_compute; reflexivity .. | exact Hno].
Defined.

End SocketDialogInstances.
